(** * A shallow embedding of the DynamoDB item-store and memory tools

    The development follows [strands_dynamodb.py] and [strands_dyn_memory.py]:
    the value codec ([_convert_floats_to_decimal], [_convert_decimal_to_float]),
    the table and item tools, and the memory tools built on top of them.

    Python values are an inductive type, exceptions are an explicit result
    type, and the backing engine (boto3) is an interface whose calls may
    return or raise. *)

From Stdlib Require Import String Ascii List ZArith Lia Bool Arith Permutation.
Import ListNotations.
Local Open Scope list_scope.
Local Open Scope string_scope.
Set Warnings "-register-all".

(** ** Python's float and Decimal

    [float], [str] on floats, [decimal.Decimal] and [float(Decimal)] belong
    to the Python runtime, not to the repository.  They are an interface. *)

Class FloatLib : Type := {
  pyfloat : Type;
  pydecimal : Type;
  (** [str(x)] for a float [x]: the shortest text that reads back as [x];
      ['inf'], ['-inf'] and ['nan'] for the non-finite ones. *)
  float_str : pyfloat -> string;
  (** [Decimal(s)], used by the source on the output of [str] only. *)
  Decimal : string -> pydecimal;
  (** [float(d)] for a Decimal [d]. *)
  float_of_decimal : pydecimal -> pyfloat;
  (** [str(d)] for a Decimal [d]. *)
  decimal_str : pydecimal -> string;
  (** [math.isfinite(x)]. *)
  isfinite : pyfloat -> bool;
  (** [bool(x)]: false on [0.0] and [-0.0] only. *)
  float_truthy : pyfloat -> bool;
  (** [bool(d)]: false on a zero Decimal only. *)
  decimal_truthy : pydecimal -> bool
}.

(** The guarantee Python documents for [repr]/[str] of a finite float:
    reading the text back gives the same float. *)
Definition repr_round_trips `{FloatLib} : Prop :=
  forall f : pyfloat, isfinite f = true ->
    float_of_decimal (Decimal (float_str f)) = f.

(** An instance in which a float is named by its [str] and a Decimal by the
    literal it was built from.  [str] is injective on floats, so the naming
    loses nothing on the values the codec produces. *)
Definition repr_nonfinite (s : string) : bool :=
  existsb (String.eqb s) ["inf"; "-inf"; "nan"].

Definition repr_zero (s : string) : bool :=
  existsb (String.eqb s) ["0.0"; "-0.0"; "0"; "-0"].

#[export] Instance ReprFloats : FloatLib := {|
  pyfloat := string;
  pydecimal := string;
  float_str := fun s => s;
  Decimal := fun s => s;
  float_of_decimal := fun s => s;
  decimal_str := fun s => s;
  isfinite := fun s => negb (repr_nonfinite s);
  float_truthy := fun s => negb (repr_zero s);
  decimal_truthy := fun s => negb (repr_zero s)
|}.

(** ** Python values *)

Section Values.
Context `{FL : FloatLib}.

(** The values the tools see.  [VObj] stands for an instance of a class the
    code knows nothing about; a dict has string keys, in insertion order. *)
Inductive pyval : Type :=
| VNone
| VBool (b : bool)
| VInt (z : Z)
| VFloat (f : pyfloat)
| VDecimal (d : pydecimal)
| VStr (s : string)
| VBytes (b : list Byte.byte)
| VList (l : list pyval)
| VDict (kvs : list (string * pyval))
| VObj (id : nat).

(** Induction that reaches inside lists and dicts. *)
Section PyvalInd.
Variable P : pyval -> Prop.
Hypothesis HNone : P VNone.
Hypothesis HBool : forall b, P (VBool b).
Hypothesis HInt : forall z, P (VInt z).
Hypothesis HFloat : forall f, P (VFloat f).
Hypothesis HDecimal : forall d, P (VDecimal d).
Hypothesis HStr : forall s, P (VStr s).
Hypothesis HBytes : forall b, P (VBytes b).
Hypothesis HList : forall l, Forall P l -> P (VList l).
Hypothesis HDict : forall kvs, Forall (fun kv => P (snd kv)) kvs -> P (VDict kvs).
Hypothesis HObj : forall id, P (VObj id).

Fixpoint pyval_nested_ind (v : pyval) : P v :=
  match v with
  | VNone => HNone
  | VBool b => HBool b
  | VInt z => HInt z
  | VFloat f => HFloat f
  | VDecimal d => HDecimal d
  | VStr s => HStr s
  | VBytes b => HBytes b
  | VList l =>
      HList l ((fix all (l : list pyval) : Forall P l :=
                  match l with
                  | [] => Forall_nil _
                  | x :: r => Forall_cons _ (pyval_nested_ind x) (all r)
                  end) l)
  | VDict kvs =>
      HDict kvs ((fix all (l : list (string * pyval))
                    : Forall (fun kv => P (snd kv)) l :=
                    match l with
                    | [] => Forall_nil _
                    | kv :: r =>
                        Forall_cons (P := fun kv => P (snd kv)) kv
                          (pyval_nested_ind (snd kv)) (all r)
                    end) kvs)
  | VObj id => HObj id
  end.
End PyvalInd.

(** [isinstance(obj, float)], [isinstance(obj, dict)], ... *)
Definition is_float (v : pyval) : bool :=
  match v with VFloat _ => true | _ => false end.
Definition is_decimal (v : pyval) : bool :=
  match v with VDecimal _ => true | _ => false end.
Definition is_obj (v : pyval) : bool :=
  match v with VObj _ => true | _ => false end.

(** [bool(v)], as [if v:] takes it. *)
Definition truthy (v : pyval) : bool :=
  match v with
  | VNone => false
  | VBool b => b
  | VInt z => negb (Z.eqb z 0)
  | VFloat f => float_truthy f
  | VDecimal d => decimal_truthy d
  | VStr s => negb (String.eqb s "")
  | VBytes b => match b with [] => false | _ => true end
  | VList l => match l with [] => false | _ => true end
  | VDict kvs => match kvs with [] => false | _ => true end
  | VObj _ => true
  end.

(** ** The value codec *)

(** [_convert_floats_to_decimal]: a float becomes [Decimal(str(obj))], a dict
    and a list are rebuilt around their converted members, anything else is
    returned as it is. *)
Fixpoint _convert_floats_to_decimal (obj : pyval) : pyval :=
  match obj with
  | VFloat f => VDecimal (Decimal (float_str f))
  | VDict kvs =>
      VDict (map (fun kv => (fst kv, _convert_floats_to_decimal (snd kv))) kvs)
  | VList l => VList (map _convert_floats_to_decimal l)
  | _ => obj
  end.

(** [_convert_decimal_to_float]: a Decimal becomes [float(obj)], recursively. *)
Fixpoint _convert_decimal_to_float (obj : pyval) : pyval :=
  match obj with
  | VDecimal d => VFloat (float_of_decimal d)
  | VDict kvs =>
      VDict (map (fun kv => (fst kv, _convert_decimal_to_float (snd kv))) kvs)
  | VList l => VList (map _convert_decimal_to_float l)
  | _ => obj
  end.

(** The values of the application side: strings, booleans, binary, null,
    integers, finite floats, and lists and string-keyed dicts of these. *)
Fixpoint representable (v : pyval) : bool :=
  match v with
  | VNone | VBool _ | VInt _ | VStr _ | VBytes _ => true
  | VFloat f => isfinite f
  | VDecimal _ | VObj _ => false
  | VList l => forallb representable l
  | VDict kvs => forallb (fun kv => representable (snd kv)) kvs
  end.

(** Whether a float occurs anywhere in a value. *)
Fixpoint has_float (v : pyval) : bool :=
  match v with
  | VFloat _ => true
  | VList l => existsb has_float l
  | VDict kvs => existsb (fun kv => has_float (snd kv)) kvs
  | _ => false
  end.

End Values.

(** ** Text

    A Python [str] is a [string]; each character is a code point below 256. *)

Definition nl : string := String (ascii_of_nat 10) "".
Definition quote : string := String (ascii_of_nat 39) "".

Definition digit_char (d : Z) : ascii := ascii_of_nat (48 + Z.to_nat d).

Definition is_digit (c : ascii) : bool :=
  (48 <=? nat_of_ascii c)%nat && (nat_of_ascii c <=? 57)%nat.

(** The decimal digits of a non-negative number, most significant first. *)
Fixpoint digits_fuel (fuel : nat) (n : Z) (acc : string) : string :=
  match fuel with
  | O => acc
  | S k =>
      let acc' := String (digit_char (n mod 10)) acc in
      if (n / 10 =? 0)%Z then acc' else digits_fuel k (n / 10) acc'
  end.

(** [str(n)] for an int. *)
Definition str_Z (n : Z) : string :=
  if (n <? 0)%Z
  then "-" ++ digits_fuel (S (Z.to_nat (Z.log2 (- n)))) (- n) ""
  else digits_fuel (S (Z.to_nat (Z.log2 n))) n "".

Definition str_nat (n : nat) : string := str_Z (Z.of_nat n).

(** The last [w] decimal digits of [n], zero-padded: [%02d], [%06d], ... *)
Fixpoint fixed_digits (w : nat) (n : Z) : string :=
  match w with
  | O => ""
  | S k => fixed_digits k (n / 10) ++ String (digit_char (n mod 10)) ""
  end.

(** [str.isspace] on one character, which is also the regex class [\s]. *)
Definition is_space (c : ascii) : bool :=
  let n := nat_of_ascii c in
  ((9 <=? n) && (n <=? 13) || (28 <=? n) && (n <=? 32)
   || (n =? 133) || (n =? 160))%nat.

(** [str.lower] on one character. *)
Definition lower_char (c : ascii) : ascii :=
  let n := nat_of_ascii c in
  if ((65 <=? n) && (n <=? 90)
      || (192 <=? n) && (n <=? 222) && negb (n =? 215))%nat
  then ascii_of_nat (n + 32) else c.

Fixpoint lower (s : string) : string :=
  match s with
  | EmptyString => EmptyString
  | String c r => String (lower_char c) (lower r)
  end.

(** [s.startswith(p)]. *)
Definition startswith (s p : string) : bool := String.prefix p s.

(** [sep.join(parts)]. *)
Definition join (sep : string) (parts : list string) : string :=
  String.concat sep parts.

Fixpoint lstrip (s : string) : string :=
  match s with
  | EmptyString => EmptyString
  | String c r => if is_space c then lstrip r else s
  end.

Fixpoint rstrip (s : string) : string :=
  match s with
  | EmptyString => EmptyString
  | String c r =>
      match rstrip r with
      | EmptyString => if is_space c then EmptyString else String c EmptyString
      | r' => String c r'
      end
  end.

(** [s.strip()]. *)
Definition strip (s : string) : string := rstrip (lstrip s).

(** The characters of a string, one string each: iterating over a [str]. *)
Fixpoint chars (s : string) : list string :=
  match s with
  | EmptyString => []
  | String c r => String c EmptyString :: chars r
  end.

(** ** Exceptions *)

(** What a call can raise: botocore's [ClientError], with the [Code] and
    [Message] of [e.response['Error']] and the operation it came from, or any
    other subclass of [Exception], with its class name and its [str]. *)
Inductive exn : Type :=
| ClientError (code message operation : string)
| OtherError (cls text : string).

(** [str(e)]. *)
Definition str_exn (e : exn) : string :=
  match e with
  | ClientError code message operation =>
      "An error occurred (" ++ code ++ ") when calling the " ++ operation
        ++ " operation: " ++ message
  | OtherError _ text => text
  end.

Inductive result (A : Type) : Type :=
| Ok (a : A)
| Raise (e : exn).
Arguments Ok {A} a.
Arguments Raise {A} e.

Definition KeyError (k : string) : exn :=
  OtherError "KeyError" (quote ++ k ++ quote).
Definition TypeError (text : string) : exn := OtherError "TypeError" text.
Definition AttributeError (text : string) : exn :=
  OtherError "AttributeError" text.

(** ** The runtime around the tools *)

(** [datetime]: what [datetime.utcnow()] returns. *)
Record datetime : Type := {
  year : Z; month : Z; day : Z;
  hour : Z; minute : Z; second : Z; microsecond : Z
}.

(** A reading a clock can give, with a four-digit year. *)
Definition valid_datetime (t : datetime) : Prop :=
  (1000 <= year t <= 9999 /\ 1 <= month t <= 12 /\ 1 <= day t <= 31
   /\ 0 <= hour t <= 23 /\ 0 <= minute t <= 59 /\ 0 <= second t <= 59
   /\ 0 <= microsecond t <= 999999)%Z.

(** [t.strftime('%Y%m%d_%H%M%S_%f')]: [%Y] is the year in decimal, the other
    fields are zero-padded to their width. *)
Definition strftime_id (t : datetime) : string :=
  str_Z (year t) ++ fixed_digits 2 (month t) ++ fixed_digits 2 (day t)
    ++ "_" ++ fixed_digits 2 (hour t) ++ fixed_digits 2 (minute t)
    ++ fixed_digits 2 (second t)
    ++ "_" ++ fixed_digits 6 (microsecond t).

(** [t.isoformat()]: the microseconds are left out when they are zero. *)
Definition isoformat (t : datetime) : string :=
  fixed_digits 4 (year t) ++ "-" ++ fixed_digits 2 (month t) ++ "-"
    ++ fixed_digits 2 (day t) ++ "T" ++ fixed_digits 2 (hour t) ++ ":"
    ++ fixed_digits 2 (minute t) ++ ":" ++ fixed_digits 2 (second t)
    ++ (if (microsecond t =? 0)%Z then ""
        else "." ++ fixed_digits 6 (microsecond t)).

Section Runtime.
Context `{FL : FloatLib}.

(** The requests the tools send to boto3, with their keyword arguments. *)
Inductive api_call : Type :=
| DescribeTable (TableName : string)
| CreateTable (TableName : string)
    (KeySchema AttributeDefinitions : list (string * string))
    (BillingMode : string) (ProvisionedThroughput : option (Z * Z))
| WaitTableExists (TableName : string)
| ListTables
| DeleteTable (TableName : string)
| PutItem (table : string) (Item : pyval)
| GetItem (table : string) (Key : pyval)
| UpdateItem (table : string) (Key : pyval) (UpdateExpression : string)
    (ExpressionAttributeNames : list (string * string))
    (ExpressionAttributeValues : list (string * pyval))
| DeleteItem (table : string) (Key : pyval)
| Scan (table : string) (Limit : option Z) (FilterExpression : option string)
| Query (table : string) (key_name key_value : string) (Limit : Z).

(** What the Python runtime and the process environment decide. *)
Class Runtime : Type := {
  (** [str(v)] of a list, a dict, bytes or an object. *)
  compound_str : pyval -> string;
  (** [a < b] where a float, a non-integral Decimal or a container is
      involved. *)
  other_lt : pyval -> pyval -> result bool;
  (** The integer a Decimal denotes, when it denotes one. *)
  decimal_int : pydecimal -> option Z;
  (** [int(t.timestamp())] for a naive datetime, in the local time zone. *)
  epoch_seconds : datetime -> Z;
  (** The environment variable [MEMORY_TABLE_NAME], or ["AIMemories"]. *)
  MEMORY_TABLE_NAME : string
}.

(** The backing engine and the clock: every request returns a response dict or
    raises, and may change the engine. *)
Class World : Type := {
  world : Type;
  engine : api_call -> world -> result (list (string * pyval)) * world;
  utcnow : world -> datetime * world
}.

Context `{RT : Runtime} `{W : World}.

(** The state a tool runs in: the world, and the requests sent so far. *)
Record state : Type := { env : world; calls : list api_call }.

Definition M (A : Type) : Type := state -> result A * state.

Definition ret {A} (a : A) : M A := fun s => (Ok a, s).

Definition raise {A} (e : exn) : M A := fun s => (Raise e, s).

Definition bind {A B} (m : M A) (k : A -> M B) : M B :=
  fun s =>
    match m s with
    | (Ok a, s') => k a s'
    | (Raise e, s') => (Raise e, s')
    end.

(** A pure computation that may raise. *)
Definition lift {A} (r : result A) : M A := fun s => (r, s).

(** One request to the engine, recorded in [calls]. *)
Definition request (c : api_call) : M (list (string * pyval)) :=
  fun s =>
    let (r, w') := engine c (env s) in
    (r, {| env := w'; calls := (calls s ++ [c])%list |}).

Definition now : M datetime :=
  fun s =>
    let (t, w') := utcnow (env s) in
    (Ok t, {| env := w'; calls := calls s |}).

(** The clauses of a [try] statement, in the order they are written. *)
Inductive except_clause (A : Type) : Type :=
| except_ClientError (h : string -> string -> M A)
| except_Exception (h : exn -> M A).
Arguments except_ClientError {A} h.
Arguments except_Exception {A} h.

(** The handler of the first clause that matches [e], if one does. *)
Fixpoint dispatch {A} (clauses : list (except_clause A)) (e : exn)
  : option (M A) :=
  match clauses with
  | [] => None
  | except_ClientError h :: rest =>
      match e with
      | ClientError code message _ => Some (h code message)
      | OtherError _ _ => dispatch rest e
      end
  | except_Exception h :: _ => Some (h e)
  end.

(** [try: body except ...]: an exception no clause matches goes on to the
    caller, and so does one raised inside a handler. *)
Definition try {A} (body : M A) (clauses : list (except_clause A)) : M A :=
  fun s =>
    match body s with
    | (Ok a, s') => (Ok a, s')
    | (Raise e, s') =>
        match dispatch clauses e with
        | Some h => h s'
        | None => (Raise e, s')
        end
    end.

End Runtime.

Arguments except_ClientError {FL W A} h.
Arguments except_Exception {FL W A} h.

Notation "x <- m ;; k" := (bind m (fun x => k))
  (at level 61, m at next level, right associativity).
Notation "m ;;; k" := (bind m (fun _ => k))
  (at level 61, right associativity).

(** ** Operations on Python values *)

Definition rbind {A B} (r : result A) (k : A -> result B) : result B :=
  match r with
  | Ok a => k a
  | Raise e => Raise e
  end.

Notation "x <-? r ;; k" := (rbind r (fun x => k))
  (at level 61, r at next level, right associativity).

(** A comprehension or a [for] loop whose body may raise: the first exception
    ends it. *)
Fixpoint traverse {A B} (f : A -> result B) (l : list A) : result (list B) :=
  match l with
  | [] => Ok []
  | x :: r => y <-? f x ;; ys <-? traverse f r ;; Ok (y :: ys)
  end.

(** [enumerate(l, i)]. *)
Fixpoint enumerate {A} (i : nat) (l : list A) : list (nat * A) :=
  match l with
  | [] => []
  | x :: r => (i, x) :: enumerate (S i) r
  end.

Section PythonOps.
Context `{FL : FloatLib} {RT : Runtime}.

Definition type_name (v : pyval) : string :=
  match v with
  | VNone => "NoneType"
  | VBool _ => "bool"
  | VInt _ => "int"
  | VFloat _ => "float"
  | VDecimal _ => "decimal.Decimal"
  | VStr _ => "str"
  | VBytes _ => "bytes"
  | VList _ => "list"
  | VDict _ => "dict"
  | VObj _ => "object"
  end.

Definition no_attribute (v : pyval) (name : string) : exn :=
  AttributeError (quote ++ type_name v ++ quote ++ " object has no attribute "
                    ++ quote ++ name ++ quote).

(** [str(v)], which is also what an f-string puts for [{v}]. *)
Definition py_str (v : pyval) : string :=
  match v with
  | VNone => "None"
  | VBool true => "True"
  | VBool false => "False"
  | VInt z => str_Z z
  | VFloat f => float_str f
  | VDecimal d => decimal_str d
  | VStr s => s
  | _ => compound_str v
  end.

(** The first binding of [k] in a dict. *)
Fixpoint lookup (k : string) (kvs : list (string * pyval)) : option pyval :=
  match kvs with
  | [] => None
  | (k', v) :: r => if String.eqb k k' then Some v else lookup k r
  end.

(** [d.get(k, default)] on a dict. *)
Definition dict_get (kvs : list (string * pyval)) (k : string)
    (default : pyval) : pyval :=
  match lookup k kvs with
  | Some v => v
  | None => default
  end.

(** [v.get(k, default)] on any value. *)
Definition get (v : pyval) (k : string) (default : pyval) : result pyval :=
  match v with
  | VDict kvs => Ok (dict_get kvs k default)
  | _ => Raise (no_attribute v "get")
  end.

(** [v[k]] with a string [k]. *)
Definition getitem (v : pyval) (k : string) : result pyval :=
  match v with
  | VDict kvs =>
      match lookup k kvs with
      | Some x => Ok x
      | None => Raise (KeyError k)
      end
  | VObj _ | VNone | VBool _ | VInt _ | VFloat _ | VDecimal _ =>
      Raise (TypeError (quote ++ type_name v ++ quote
                          ++ " object is not subscriptable"))
  | VStr _ | VBytes _ | VList _ =>
      Raise (TypeError (type_name v ++ " indices must be integers"))
  end.

(** [k in v] with a string [k], on a dict. *)
Definition has_key (k : string) (kvs : list (string * pyval)) : bool :=
  match lookup k kvs with Some _ => true | None => false end.

(** [v.items()]. *)
Definition items_of (v : pyval) : result (list (string * pyval)) :=
  match v with
  | VDict kvs => Ok kvs
  | _ => Raise (no_attribute v "items")
  end.

(** [v.keys()]. *)
Definition keys_of (v : pyval) : result (list string) :=
  match v with
  | VDict kvs => Ok (map fst kvs)
  | _ => Raise (no_attribute v "keys")
  end.

(** The members a [for] loop or a comprehension sees. *)
Definition iterate (v : pyval) : result (list pyval) :=
  match v with
  | VList l => Ok l
  | VStr s => Ok (map VStr (chars s))
  | VDict kvs => Ok (map (fun kv => VStr (fst kv)) kvs)
  | VBytes b => Ok (map (fun x => VInt (Z.of_nat (Byte.to_nat x))) b)
  | _ => Raise (TypeError (quote ++ type_name v ++ quote
                             ++ " object is not iterable"))
  end.

(** [len(v)]. *)
Definition len (v : pyval) : result nat :=
  match v with
  | VList l => Ok (length l)
  | VStr s => Ok (String.length s)
  | VDict kvs => Ok (length kvs)
  | VBytes b => Ok (length b)
  | _ => Raise (TypeError ("object of type " ++ quote ++ type_name v ++ quote
                             ++ " has no len()"))
  end.

(** [sep.join(v)]: every member has to be a [str]. *)
Definition join_member (ix : nat * pyval) : result string :=
  match snd ix with
  | VStr s => Ok s
  | x => Raise (TypeError ("sequence item " ++ str_nat (fst ix)
                             ++ ": expected str instance, " ++ type_name x
                             ++ " found"))
  end.

Definition py_join (sep : string) (v : pyval) : result string :=
  match iterate v with
  | Ok l => parts <-? traverse join_member (enumerate 0 l) ;; Ok (join sep parts)
  | Raise _ => Raise (TypeError "can only join an iterable")
  end.

(** [_format_item]: one line ["  key: value"] for each attribute. *)
Definition _format_item (item : pyval) : result string :=
  kvs <-? items_of item ;;
  Ok (join nl (map (fun kv => "  " ++ fst kv ++ ": " ++ py_str (snd kv)) kvs)).

(** The loop [for i, item in enumerate(items, 1): result += ...] of the scan
    and query tools. *)
Fixpoint format_items (acc : string) (items : list (nat * pyval))
  : result string :=
  match items with
  | [] => Ok acc
  | (i, item) :: rest =>
      text <-? _format_item item ;;
      format_items (acc ++ "Item " ++ str_nat i ++ ":" ++ nl ++ text
                      ++ nl ++ nl) rest
  end.

End PythonOps.

(** ** The table and item tools ([strands_dynamodb.py]) *)

Section DynamoTools.
Context `{FL : FloatLib} {RT : Runtime} {W : World}.

(** [if s:] on an optional string argument. *)
Definition given (s : option string) : option string :=
  match s with
  | Some x => if String.eqb x "" then None else Some x
  | None => None
  end.

Definition create_dynamodb_table (table_name partition_key : string)
    (partition_key_type : string) (sort_key : option string)
    (sort_key_type : string) (read_capacity write_capacity : Z) : M string :=
  try
    (let key_schema := [(partition_key, "HASH")] in
     let attribute_definitions := [(partition_key, partition_key_type)] in
     let key_schema :=
       match given sort_key with
       | Some sk => (key_schema ++ [(sk, "RANGE")])%list
       | None => key_schema
       end in
     let attribute_definitions :=
       match given sort_key with
       | Some sk => (attribute_definitions ++ [(sk, sort_key_type)])%list
       | None => attribute_definitions
       end in
     response <- request (CreateTable table_name key_schema
                            attribute_definitions "PROVISIONED"
                            (Some (read_capacity, write_capacity))) ;;
     description <- lift (getitem (VDict response) "TableDescription") ;;
     status <- lift (getitem description "TableStatus") ;;
     ret ("Table '" ++ table_name ++ "' is being created. Status: "
            ++ py_str status))
    [ except_ClientError (fun error_code message =>
        if String.eqb error_code "ResourceInUseException"
        then ret ("Error: Table '" ++ table_name ++ "' already exists")
        else ret ("Error creating table: " ++ message));
      except_Exception (fun e => ret ("Unexpected error: " ++ str_exn e)) ].

Definition list_dynamodb_tables : M string :=
  try
    (response <- request ListTables ;;
     let tables := dict_get response "TableNames" (VList []) in
     if negb (truthy tables)
     then ret "No DynamoDB tables found in this region"
     else
       n <- lift (len tables) ;;
       names <- lift (iterate tables) ;;
       ret ("DynamoDB tables (" ++ str_nat n ++ "):" ++ nl
              ++ join nl (map (fun table => "  - " ++ py_str table) names)))
    [ except_ClientError (fun _ message =>
        ret ("Error listing tables: " ++ message));
      except_Exception (fun e => ret ("Unexpected error: " ++ str_exn e)) ].

Definition delete_dynamodb_table (table_name : string) : M string :=
  try
    (request (DeleteTable table_name) ;;;
     ret ("Table '" ++ table_name ++ "' is being deleted"))
    [ except_ClientError (fun error_code message =>
        if String.eqb error_code "ResourceNotFoundException"
        then ret ("Error: Table '" ++ table_name ++ "' does not exist")
        else ret ("Error deleting table: " ++ message));
      except_Exception (fun e => ret ("Unexpected error: " ++ str_exn e)) ].

(** The loop over [table['KeySchema']] of [describe_dynamodb_table]. *)
Fixpoint key_schema_lines (acc : string) (keys : list pyval)
  : result string :=
  match keys with
  | [] => Ok acc
  | key :: rest =>
      name <-? getitem key "AttributeName" ;;
      key_type <-? getitem key "KeyType" ;;
      key_schema_lines (acc ++ "  - " ++ py_str name ++ " ("
                          ++ py_str key_type ++ ")" ++ nl) rest
  end.

Definition describe_dynamodb_table (table_name : string) : M string :=
  try
    (response <- request (DescribeTable table_name) ;;
     table <- lift (getitem (VDict response) "Table") ;;
     name <- lift (getitem table "TableName") ;;
     let result := "Table: " ++ py_str name ++ nl in
     status <- lift (getitem table "TableStatus") ;;
     let result := result ++ "Status: " ++ py_str status ++ nl in
     item_count <- lift (get table "ItemCount" (VStr "N/A")) ;;
     let result := result ++ "Item Count: " ++ py_str item_count ++ nl in
     size <- lift (get table "TableSizeBytes" (VInt 0)) ;;
     let result := result ++ "Size: " ++ py_str size ++ " bytes" ++ nl in
     created <- lift (get table "CreationDateTime" (VStr "N/A")) ;;
     let result := result ++ "Creation Time: " ++ py_str created ++ nl in
     let result := result ++ nl ++ "Key Schema:" ++ nl in
     schema <- lift (getitem table "KeySchema") ;;
     keys <- lift (iterate schema) ;;
     lift (key_schema_lines result keys))
    [ except_ClientError (fun error_code message =>
        if String.eqb error_code "ResourceNotFoundException"
        then ret ("Error: Table '" ++ table_name ++ "' does not exist")
        else ret ("Error describing table: " ++ message));
      except_Exception (fun e => ret ("Unexpected error: " ++ str_exn e)) ].

Definition put_dynamodb_item (table_name : string) (item : pyval)
  : M string :=
  try
    (let item := _convert_floats_to_decimal item in
     request (PutItem table_name item) ;;;
     ret ("Successfully added/updated item in table '" ++ table_name ++ "'"))
    [ except_ClientError (fun _ message =>
        ret ("Error putting item: " ++ message));
      except_Exception (fun e => ret ("Unexpected error: " ++ str_exn e)) ].

Definition get_dynamodb_item (table_name : string) (key : pyval)
  : M string :=
  try
    (response <- request (GetItem table_name key) ;;
     if has_key "Item" response
     then
       found <- lift (getitem (VDict response) "Item") ;;
       let item := _convert_decimal_to_float found in
       text <- lift (_format_item item) ;;
       ret ("Item found:" ++ nl ++ text)
     else ret ("No item found with key: " ++ py_str key))
    [ except_ClientError (fun _ message =>
        ret ("Error getting item: " ++ message));
      except_Exception (fun e => ret ("Unexpected error: " ++ str_exn e)) ].

Definition update_dynamodb_item (table_name : string) (key updates : pyval)
  : M string :=
  try
    (let updates := _convert_floats_to_decimal updates in
     keys <- lift (keys_of updates) ;;
     let update_expression :=
       "SET " ++ join ", " (map (fun k => "#" ++ k ++ " = :" ++ k) keys) in
     let expression_attribute_names := map (fun k => ("#" ++ k, k)) keys in
     pairs <- lift (items_of updates) ;;
     let expression_attribute_values :=
       map (fun kv => (":" ++ fst kv, snd kv)) pairs in
     request (UpdateItem table_name key update_expression
                expression_attribute_names expression_attribute_values) ;;;
     ret ("Successfully updated item in table '" ++ table_name ++ "'"))
    [ except_ClientError (fun _ message =>
        ret ("Error updating item: " ++ message));
      except_Exception (fun e => ret ("Unexpected error: " ++ str_exn e)) ].

Definition delete_dynamodb_item (table_name : string) (key : pyval)
  : M string :=
  try
    (request (DeleteItem table_name key) ;;;
     ret ("Successfully deleted item from table '" ++ table_name ++ "'"))
    [ except_ClientError (fun _ message =>
        ret ("Error deleting item: " ++ message));
      except_Exception (fun e => ret ("Unexpected error: " ++ str_exn e)) ].

Definition scan_dynamodb_table (table_name : string) (limit : Z)
    (filter_expression : option string) : M string :=
  try
    (response <- request (Scan table_name (Some limit)
                            (given filter_expression)) ;;
     let items := dict_get response "Items" (VList []) in
     if negb (truthy items)
     then ret ("No items found in table '" ++ table_name ++ "'")
     else
       members <- lift (iterate items) ;;
       let items := map _convert_decimal_to_float members in
       let result := "Found " ++ str_nat (length items) ++ " item(s) in '"
                       ++ table_name ++ "':" ++ nl ++ nl in
       result <- lift (format_items result (enumerate 1 items)) ;;
       ret (strip result))
    [ except_ClientError (fun _ message =>
        ret ("Error scanning table: " ++ message));
      except_Exception (fun e => ret ("Unexpected error: " ++ str_exn e)) ].

Definition query_dynamodb_table (table_name partition_key_name
    partition_key_value : string) (limit : Z) : M string :=
  try
    (response <- request (Query table_name partition_key_name
                            partition_key_value limit) ;;
     let items := dict_get response "Items" (VList []) in
     if negb (truthy items)
     then ret ("No items found with " ++ partition_key_name ++ " = '"
                 ++ partition_key_value ++ "'")
     else
       members <- lift (iterate items) ;;
       let items := map _convert_decimal_to_float members in
       let result := "Found " ++ str_nat (length items) ++ " item(s):"
                       ++ nl ++ nl in
       result <- lift (format_items result (enumerate 1 items)) ;;
       ret (strip result))
    [ except_ClientError (fun _ message =>
        ret ("Error querying table: " ++ message));
      except_Exception (fun e => ret ("Unexpected error: " ++ str_exn e)) ].

End DynamoTools.

(** ** The memory tools ([strands_dyn_memory.py]) *)

Module DynMemory.
Section MemoryTools.
Context `{FL : FloatLib} {RT : Runtime} {W : World}.

(** The module has its own [_convert_floats_to_decimal], with the text of the
    one in [strands_dynamodb.py]. *)
Fixpoint _convert_floats_to_decimal (obj : pyval) : pyval :=
  match obj with
  | VFloat f => VDecimal (Decimal (float_str f))
  | VDict kvs =>
      VDict (map (fun kv => (fst kv, _convert_floats_to_decimal (snd kv))) kvs)
  | VList l => VList (map _convert_floats_to_decimal l)
  | _ => obj
  end.

Definition ensure_memory_table_exists : M string :=
  try
    (request (DescribeTable MEMORY_TABLE_NAME) ;;;
     ret ("Memory table '" ++ MEMORY_TABLE_NAME ++ "' already exists"))
    [ except_ClientError (fun code message =>
        if String.eqb code "ResourceNotFoundException"
        then
          try
            (request (CreateTable MEMORY_TABLE_NAME
                        [("memory_id", "HASH")] [("memory_id", "S")]
                        "PAY_PER_REQUEST" None) ;;;
             request (WaitTableExists MEMORY_TABLE_NAME) ;;;
             ret ("Successfully created memory table '" ++ MEMORY_TABLE_NAME
                    ++ "'"))
            [ except_Exception (fun create_error =>
                ret ("Error creating table: " ++ str_exn create_error)) ]
        else ret ("Error checking table: " ++ message)) ].

(** [item[k] = v]: a new key goes last. *)
Fixpoint set_item (kvs : list (string * pyval)) (k : string) (v : pyval)
  : list (string * pyval) :=
  match kvs with
  | [] => [(k, v)]
  | (k', v') :: r =>
      if String.eqb k k' then (k, v) :: r else (k', v') :: set_item r k v
  end.

(** The id [store_memory_item] gives to a memory made at [timestamp]. *)
Definition memory_id_of (timestamp : datetime) : string :=
  "mem_" ++ strftime_id timestamp.

(** The item [store_memory_item] prepares for [put_item]. *)
Definition memory_item (timestamp : datetime) (content tldr : string)
    (hashtags source_url metadata : pyval) : list (string * pyval) :=
  let item :=
    [ ("memory_id", VStr (memory_id_of timestamp));
      ("content", VStr content);
      ("tldr", VStr tldr);
      ("hashtags", hashtags);
      ("created_at", VStr (isoformat timestamp));
      ("timestamp", VInt (epoch_seconds timestamp)) ] in
  let item :=
    if truthy source_url then set_item item "source_url" source_url
    else item in
  if truthy metadata
  then set_item item "metadata" (_convert_floats_to_decimal metadata)
  else item.

Definition store_memory_item (content tldr : string)
    (hashtags source_url metadata : pyval) : M string :=
  try
    (timestamp <- now ;;
     let memory_id := memory_id_of timestamp in
     let item :=
       memory_item timestamp content tldr hashtags source_url metadata in
     request (PutItem MEMORY_TABLE_NAME (VDict item)) ;;;
     tags <- lift (py_join ", " hashtags) ;;
     ret ("Successfully stored memory with ID: " ++ memory_id ++ nl
            ++ "TLDR: " ++ tldr ++ nl ++ "Hashtags: " ++ tags))
    [ except_Exception (fun e => ret ("Error storing memory: " ++ str_exn e)) ].

(** The number an int, a bool or an integral Decimal stands for. *)
Definition num_int (v : pyval) : option Z :=
  match v with
  | VBool b => Some (if b then 1 else 0)%Z
  | VInt z => Some z
  | VDecimal d => decimal_int d
  | _ => None
  end.

(** [a < b]. *)
Definition py_lt (a b : pyval) : result bool :=
  match num_int a, num_int b with
  | Some x, Some y => Ok (x <? y)%Z
  | _, _ =>
      match a, b with
      | VStr s, VStr t => Ok (String.ltb s t)
      | _, _ => other_lt a b
      end
  end.

(** [lambda x: x.get('timestamp', 0)]. *)
Definition timestamp_key (x : pyval) : result pyval :=
  get x "timestamp" (VInt 0).

(** [sort(key=..., reverse=True)] on the items paired with their keys: an
    item goes behind those with a larger key and stays ahead of those with an
    equal one that came after it. *)
Fixpoint insert_desc (x : pyval * pyval) (l : list (pyval * pyval))
  : result (list (pyval * pyval)) :=
  match l with
  | [] => Ok [x]
  | y :: r =>
      smaller <-? py_lt (fst x) (fst y) ;;
      if smaller
      then r' <-? insert_desc x r ;; Ok (y :: r')
      else Ok (x :: y :: r)
  end.

Fixpoint sort_desc (l : list (pyval * pyval))
  : result (list (pyval * pyval)) :=
  match l with
  | [] => Ok []
  | x :: r => r' <-? sort_desc r ;; insert_desc x r'
  end.

(** [items.sort(key=lambda x: x.get('timestamp', 0), reverse=True)]. *)
Definition sort_by_timestamp (items : pyval) : result (list pyval) :=
  match items with
  | VList l =>
      keyed <-? traverse (fun x => k <-? timestamp_key x ;; Ok (k, x)) l ;;
      sorted <-? sort_desc keyed ;;
      Ok (map snd sorted)
  | _ => Raise (no_attribute items "sort")
  end.

(** [l[:limit]]: a negative [limit] counts from the end. *)
Definition slice_to {A} (limit : Z) (l : list A) : list A :=
  if (limit <? 0)%Z
  then firstn (length l - Z.to_nat (- limit)) l
  else firstn (Z.to_nat limit) l.

(** The body of the loop of [list_recent_memories] for one item. *)
Definition recent_entry (i : nat) (item : pyval) : result string :=
  memory_id <-? getitem item "memory_id" ;;
  tldr <-? get item "tldr" (VStr "N/A") ;;
  hashtags <-? get item "hashtags" (VList []) ;;
  tags <-? py_join ", " hashtags ;;
  created <-? get item "created_at" (VStr "N/A") ;;
  source <-?
    match item with
    | VDict kvs =>
        if has_key "source_url" kvs
        then url <-? getitem item "source_url" ;;
             Ok ("   Source: " ++ py_str url ++ nl)
        else Ok ""
    | _ => Ok ""
    end ;;
  Ok (str_nat i ++ ". [" ++ py_str memory_id ++ "]" ++ nl
        ++ "   TLDR: " ++ py_str tldr ++ nl
        ++ "   Hashtags: " ++ tags ++ nl
        ++ "   Created: " ++ py_str created ++ nl
        ++ source ++ nl).

(** A loop [for i, item in enumerate(...): result += entry]. *)
Fixpoint entries (entry : nat -> pyval -> result string) (acc : string)
    (items : list (nat * pyval)) : result string :=
  match items with
  | [] => Ok acc
  | (i, item) :: rest =>
      text <-? entry i item ;; entries entry (acc ++ text) rest
  end.

Definition list_recent_memories (limit : Z) : M string :=
  try
    (response <- request (Scan MEMORY_TABLE_NAME (Some limit) None) ;;
     let items := dict_get response "Items" (VList []) in
     if negb (truthy items)
     then ret "No memories found"
     else
       items <- lift (sort_by_timestamp items) ;;
       let result := "Recent memories (" ++ str_nat (length items) ++ "):"
                       ++ nl ++ nl in
       result <- lift (entries recent_entry result
                         (enumerate 1 (slice_to limit items))) ;;
       ret (strip result))
    [ except_ClientError (fun code message =>
        if String.eqb code "ResourceNotFoundException"
        then ret ("Memory table '" ++ MEMORY_TABLE_NAME
                    ++ "' does not exist yet")
        else ret ("Error listing memories: " ++ message));
      except_Exception (fun e => ret ("Error: " ++ str_exn e)) ].

(** [bytes.lower] on one byte. *)
Definition lower_byte (b : Byte.byte) : Byte.byte :=
  let n := Byte.to_nat b in
  if ((65 <=? n) && (n <=? 90))%nat
  then match Byte.of_nat (n + 32) with Some b' => b' | None => b end
  else b.

(** [tag.lower()]. *)
Definition tag_lower (tag : pyval) : result pyval :=
  match tag with
  | VStr s => Ok (VStr (lower s))
  | VBytes b => Ok (VBytes (map lower_byte b))
  | _ => Raise (no_attribute tag "lower")
  end.

(** [s == v] for a string [s]. *)
Definition str_equals (s : string) (v : pyval) : bool :=
  match v with
  | VStr t => String.eqb s t
  | _ => false
  end.

(** [hashtag.lower() in [tag.lower() for tag in item.get('hashtags', [])]]. *)
Definition has_hashtag (hashtag : string) (item : pyval) : result bool :=
  tags <-? get item "hashtags" (VList []) ;;
  members <-? iterate tags ;;
  lowered <-? traverse tag_lower members ;;
  Ok (existsb (str_equals (lower hashtag)) lowered).

(** [[item for item in items if cond(item)]]. *)
Fixpoint select (cond : pyval -> result bool) (items : list pyval)
  : result (list pyval) :=
  match items with
  | [] => Ok []
  | item :: rest =>
      keep <-? cond item ;;
      kept <-? select cond rest ;;
      Ok (if keep then item :: kept else kept)
  end.

(** The normalisation at the head of [search_memories_by_hashtag]. *)
Definition normalize_hashtag (hashtag : string) : string :=
  if negb (startswith hashtag "#") then "#" ++ hashtag else hashtag.

(** The body of the loop of [search_memories_by_hashtag] for one item. *)
Definition match_entry (i : nat) (item : pyval) : result string :=
  memory_id <-? getitem item "memory_id" ;;
  tldr <-? get item "tldr" (VStr "N/A") ;;
  created <-? get item "created_at" (VStr "N/A") ;;
  Ok (str_nat i ++ ". [" ++ py_str memory_id ++ "]" ++ nl
        ++ "   TLDR: " ++ py_str tldr ++ nl
        ++ "   Created: " ++ py_str created ++ nl ++ nl).

(** What [search_memories_by_hashtag] returns for the items it selected. *)
Definition render_matches (hashtag : string) (matching_items : list pyval)
  : result string :=
  match matching_items with
  | [] => Ok ("No memories found with hashtag: " ++ hashtag)
  | _ =>
      let result := "Memories with " ++ hashtag ++ " ("
                      ++ str_nat (length matching_items) ++ "):"
                      ++ nl ++ nl in
      result <-? entries match_entry result (enumerate 1 matching_items) ;;
      Ok (strip result)
  end.

Definition search_memories_by_hashtag (hashtag : string) : M string :=
  try
    (let hashtag := normalize_hashtag hashtag in
     response <- request (Scan MEMORY_TABLE_NAME None None) ;;
     let items := dict_get response "Items" (VList []) in
     members <- lift (iterate items) ;;
     matching_items <- lift (select (has_hashtag hashtag) members) ;;
     lift (render_matches hashtag matching_items))
    [ except_Exception (fun e =>
        ret ("Error searching memories: " ++ str_exn e)) ].

End MemoryTools.
End DynMemory.

(** ** [extract_urls] *)

(** The negated class of the pattern: anything but white space, the angle
    brackets, the double quote, the braces, the bar, the backslash, the
    caret, the backquote and the square brackets. *)
Definition url_char (c : ascii) : bool :=
  negb (is_space c
        || existsb (Nat.eqb (nat_of_ascii c))
             [60; 62; 34; 123; 125; 124; 92; 94; 96; 91; 93]%nat).

Fixpoint take_while (p : ascii -> bool) (s : string) : string :=
  match s with
  | EmptyString => EmptyString
  | String c r => if p c then String c (take_while p r) else EmptyString
  end.

Fixpoint drop (n : nat) (s : string) : string :=
  match n, s with
  | O, _ => s
  | S k, EmptyString => EmptyString
  | S k, String _ r => drop k r
  end.

(** The match of the pattern that starts at the head of [s], if there is
    one: [http], an optional [s], [://], then the longest run of characters
    of the class, which has to be non-empty. *)
Definition match_url_at (s : string) : option string :=
  let scheme :=
    if String.prefix "https://" s then Some "https://"
    else if String.prefix "http://" s then Some "http://"
    else None in
  match scheme with
  | Some sch =>
      match take_while url_char (drop (String.length sch) s) with
      | EmptyString => None
      | body => Some (sch ++ body)
      end
  | None => None
  end.

(** [re.findall] for this pattern: the matches from left to right, each
    search starting where the last match ended.  [skip] counts the characters
    still covered by the last match. *)
Fixpoint findall_urls (skip : nat) (s : string) : list string :=
  match s with
  | EmptyString => []
  | String c r =>
      match skip with
      | S k => findall_urls k r
      | O =>
          match match_url_at s with
          | Some m => m :: findall_urls (String.length m - 1) r
          | None => findall_urls 0 r
          end
      end
  end.

Definition extract_urls (text : string) : list string :=
  findall_urls 0 text.

(** A whole string that the pattern matches. *)
Definition is_url (u : string) : bool :=
  match match_url_at u with
  | Some m => String.eqb m u
  | None => false
  end.

Fixpoint all_chars (p : ascii -> bool) (s : string) : bool :=
  match s with
  | EmptyString => true
  | String c r => p c && all_chars p r
  end.

(** An absolute http or https URL as the pattern sees it: the scheme, then
    one character of the class or more, and nothing else. *)
Definition absolute_url (u : string) : Prop :=
  exists sch body,
    (sch = "https://" \/ sch = "http://")
    /\ u = sch ++ body /\ body <> "" /\ all_chars url_char body = true.

(** [u] occurs in [text]. *)
Definition occurs_in (u text : string) : Prop :=
  exists before after, text = before ++ u ++ after.

(** [text] read from left to right is a gap, the first element of [found],
    a gap, the second one, and so on, where a gap is a stretch in which no
    match starts. *)
Inductive scanned : string -> list string -> Prop :=
| scanned_end : scanned "" []
| scanned_gap c r found :
    match_url_at (String c r) = None -> scanned r found ->
    scanned (String c r) found
| scanned_match m rest found :
    match_url_at (m ++ rest) = Some m -> scanned rest found ->
    scanned (m ++ rest) (m :: found).

(** ** The shape of a memory id *)

(** The rest of [s] after exactly [n] digits. *)
Fixpoint take_digits (n : nat) (s : string) : option string :=
  match n with
  | O => Some s
  | S k =>
      match s with
      | String c r => if is_digit c then take_digits k r else None
      | EmptyString => None
      end
  end.

(** Groups of digits of the given widths, with an underscore between two
    groups and nothing after the last. *)
Fixpoint digit_groups (widths : list nat) (s : string) : bool :=
  match widths with
  | [] => false
  | [w] =>
      match take_digits w s with
      | Some EmptyString => true
      | _ => false
      end
  | w :: ws =>
      match take_digits w s with
      | Some (String c r) =>
          Ascii.eqb c "_"%char && digit_groups ws r
      | _ => false
      end
  end.

(** ["mem_"] followed by digit groups of the given widths. *)
Definition id_pattern (widths : list nat) (s : string) : bool :=
  String.prefix "mem_" s && digit_groups widths (drop 4 s).

(** The pattern of the specification:
    [mem_<14-digit-date><underscore><6-digit-micros>]. *)
Definition spec_id_pattern : string -> bool := id_pattern [14; 6]%nat.

(** The pattern of [strftime('%Y%m%d_%H%M%S_%f')] behind ["mem_"]. *)
Definition code_id_pattern : string -> bool := id_pattern [8; 6; 6]%nat.

(** ** Memory records *)

Section Records.
Context `{FL : FloatLib} {RT : Runtime}.

Definition is_str (v : pyval) : bool :=
  match v with VStr _ => true | _ => false end.

(** An item with the shape of a memory record: a dict with a [memory_id],
    whose [hashtags], when present, is a list of strings. *)
Definition is_memory_record (item : pyval) : bool :=
  match item with
  | VDict kvs =>
      has_key "memory_id" kvs
      && match lookup "hashtags" kvs with
         | Some (VList tags) => forallb is_str tags
         | Some _ => false
         | None => true
         end
  | _ => false
  end.

(** The strings among the members of a list. *)
Definition tag_strings (tags : list pyval) : list string :=
  flat_map (fun t => match t with VStr s => [s] | _ => [] end) tags.

(** The hashtags of a memory record. *)
Definition hashtags_of (item : pyval) : list string :=
  match item with
  | VDict kvs =>
      match lookup "hashtags" kvs with
      | Some (VList tags) => tag_strings tags
      | _ => []
      end
  | _ => []
  end.

(** [tag] is one of the hashtags of [item], letter case apart. *)
Definition tagged (tag : string) (item : pyval) : bool :=
  existsb (fun t => String.eqb (lower tag) (lower t)) (hashtags_of item).

(** A memory record whose [timestamp] is an int, a bool or an integral
    Decimal, when it has one. *)
Definition has_int_timestamp (item : pyval) : bool :=
  match item with
  | VDict kvs =>
      match DynMemory.num_int (dict_get kvs "timestamp" (VInt 0)) with
      | Some _ => true
      | None => false
      end
  | _ => false
  end.

(** The number [items.sort] orders such an item by. *)
Definition timestamp_of (item : pyval) : Z :=
  match item with
  | VDict kvs =>
      match DynMemory.num_int (dict_get kvs "timestamp" (VInt 0)) with
      | Some z => z
      | None => 0
      end
  | _ => 0
  end.

(** A list in descending order of [timestamp_of]. *)
Fixpoint descending (l : list pyval) : Prop :=
  match l with
  | [] => True
  | x :: r =>
      Forall (fun y => (timestamp_of y <= timestamp_of x)%Z) r /\ descending r
  end.

End Records.

(** ** A model of the engine

    Tables hold their items in the order a scan walks them, which here is the
    order they were first put in.  One scan reads at most [page_size] items.
    A new table is [CREATING] for [creation_polls] polls of the waiter, then
    [ACTIVE]; the waiter gives up after [max_attempts] polls. *)

Section Model.
Context `{FL : FloatLib}.

Record table : Type := {
  table_name : string;
  key_names : list string;
  pending : nat;
  items : list pyval
}.

Record model : Type := {
  tables : list table;
  readings : list datetime;
  page_size : nat;
  creation_polls : nat
}.

Definition max_attempts : nat := 25.

Definition epoch : datetime :=
  {| year := 1970; month := 1; day := 1;
     hour := 0; minute := 0; second := 0; microsecond := 0 |}.

Fixpoint find_table (name : string) (ts : list table) : option table :=
  match ts with
  | [] => None
  | t :: r => if String.eqb name (table_name t) then Some t else find_table name r
  end.

Fixpoint replace_table (t : table) (ts : list table) : list table :=
  match ts with
  | [] => []
  | t' :: r =>
      if String.eqb (table_name t) (table_name t') then t :: r
      else t' :: replace_table t r
  end.

(** Equality of key values: strings, ints and binary. *)
Definition key_value_eqb (a b : pyval) : bool :=
  match a, b with
  | VStr s, VStr t => String.eqb s t
  | VInt x, VInt y => Z.eqb x y
  | VBytes x, VBytes y =>
      if list_eq_dec Byte.byte_eq_dec x y then true else false
  | _, _ => false
  end.

Definition attribute (item : pyval) (k : string) : option pyval :=
  match item with
  | VDict kvs => lookup k kvs
  | _ => None
  end.

(** Two items with the same values for every key attribute. *)
Definition same_key (names : list string) (a b : pyval) : bool :=
  forallb (fun k =>
             match attribute a k, attribute b k with
             | Some x, Some y => key_value_eqb x y
             | _, _ => false
             end) names.

(** An item takes the place of the one with its key, or goes last. *)
Fixpoint put (names : list string) (item : pyval) (l : list pyval)
  : list pyval :=
  match l with
  | [] => [item]
  | x :: r =>
      if same_key names item x then item :: r else x :: put names item r
  end.

Definition not_found (operation : string) : exn :=
  ClientError "ResourceNotFoundException" "Requested resource not found"
    operation.

Definition with_table {A} (m : model) (name operation : string)
    (k : table -> result A * model) : result A * model :=
  match find_table name (tables m) with
  | Some t => k t
  | None => (Raise (not_found operation), m)
  end.

(** Reads and writes of items need an [ACTIVE] table. *)
Definition with_active_table {A} (m : model) (name operation : string)
    (k : table -> result A * model) : result A * model :=
  with_table m name operation
    (fun t =>
       match pending t with
       | O => k t
       | S _ => (Raise (not_found operation), m)
       end).

Definition set_tables (m : model) (ts : list table) : model :=
  {| tables := ts; readings := readings m; page_size := page_size m;
     creation_polls := creation_polls m |}.

Definition set_items (t : table) (rows : list pyval) : table :=
  {| table_name := table_name t; key_names := key_names t;
     pending := pending t; items := rows |}.

Definition table_status (t : table) : string :=
  match pending t with
  | O => "ACTIVE"
  | S _ => "CREATING"
  end.

Definition describe (t : table) (status : string) : pyval :=
  VDict [ ("TableName", VStr (table_name t));
          ("TableStatus", VStr status);
          ("ItemCount", VInt (Z.of_nat (length (items t))));
          ("KeySchema",
           VList (map (fun k => VDict [ ("AttributeName", VStr k);
                                        ("KeyType", VStr "HASH") ])
                    (key_names t))) ].

Definition model_engine (c : api_call) (m : model)
  : result (list (string * pyval)) * model :=
  match c with
  | DescribeTable name =>
      with_table m name "DescribeTable"
        (fun t => (Ok [("Table", describe t (table_status t))], m))
  | CreateTable name key_schema _ _ _ =>
      match find_table name (tables m) with
      | Some _ =>
          (Raise (ClientError "ResourceInUseException"
                    ("Table already exists: " ++ name) "CreateTable"), m)
      | None =>
          let t := {| table_name := name; key_names := map fst key_schema;
                      pending := creation_polls m; items := [] |} in
          (Ok [("TableDescription", describe t "CREATING")],
           set_tables m (tables m ++ [t])%list)
      end
  | WaitTableExists name =>
      match find_table name (tables m) with
      | Some t =>
          let t' := {| table_name := table_name t; key_names := key_names t;
                       pending := pending t - max_attempts;
                       items := items t |} in
          (if (pending t <=? max_attempts)%nat then Ok []
           else Raise (OtherError "WaiterError"
                         "Waiter TableExists failed: Max attempts exceeded"),
           set_tables m (replace_table t' (tables m)))
      | None =>
          (Raise (OtherError "WaiterError"
                    "Waiter TableExists failed: Max attempts exceeded"), m)
      end
  | ListTables =>
      (Ok [("TableNames", VList (map (fun t => VStr (table_name t))
                                   (tables m)))], m)
  | DeleteTable name =>
      with_table m name "DeleteTable"
        (fun t =>
           (Ok [("TableDescription", describe t "DELETING")],
            set_tables m
              (filter (fun t' => negb (String.eqb name (table_name t')))
                 (tables m))))
  | PutItem name item =>
      with_active_table m name "PutItem"
        (fun t =>
           (Ok [], set_tables m
                     (replace_table
                        (set_items t (put (key_names t) item (items t)))
                        (tables m))))
  | GetItem name key =>
      with_active_table m name "GetItem"
        (fun t =>
           match find (same_key (key_names t) key) (items t) with
           | Some item => (Ok [("Item", item)], m)
           | None => (Ok [], m)
           end)
  | UpdateItem name _ _ _ _ =>
      with_active_table m name "UpdateItem" (fun _ => (Ok [], m))
  | DeleteItem name key =>
      with_active_table m name "DeleteItem"
        (fun t =>
           (Ok [], set_tables m
                     (replace_table
                        (set_items t
                           (filter (fun x =>
                                      negb (same_key (key_names t) key x))
                              (items t)))
                        (tables m))))
  | Scan name limit _ =>
      with_active_table m name "Scan"
        (fun t =>
           match limit with
           | Some l =>
               if (l <? 1)%Z
               then (Raise (OtherError "ParamValidationError"
                              "Parameter validation failed: Invalid value for parameter Limit, valid min value: 1"),
                     m)
               else (Ok [("Items",
                          VList (firstn (Nat.min (Z.to_nat l) (page_size m))
                                   (items t)))], m)
           | None =>
               (Ok [("Items", VList (firstn (page_size m) (items t)))], m)
           end)
  | Query name key_name key_value limit =>
      with_active_table m name "Query"
        (fun t =>
           (Ok [("Items",
                 VList (firstn (Z.to_nat limit)
                          (filter (fun x =>
                                     match attribute x key_name with
                                     | Some v => key_value_eqb v (VStr key_value)
                                     | None => false
                                     end) (items t))))], m))
  end.

(** The clock hands out its readings one after the other. *)
Definition model_utcnow (m : model) : datetime * model :=
  match readings m with
  | [] => (epoch, m)
  | t :: r =>
      (t, {| tables := tables m; readings := r; page_size := page_size m;
             creation_polls := creation_polls m |})
  end.

#[export] Instance ModelWorld : World := {|
  world := model;
  engine := model_engine;
  utcnow := model_utcnow
|}.

(** The model with a second caller: the requests in [rival] reach the engine
    just before the next [CreateTable] of the caller under study. *)
Record racing : Type := { base : model; rival : list api_call }.

Definition run_rival (calls : list api_call) (m : model) : model :=
  fold_left (fun m c => snd (model_engine c m)) calls m.

Definition racing_engine (c : api_call) (r : racing)
  : result (list (string * pyval)) * racing :=
  match c with
  | CreateTable _ _ _ _ _ =>
      let (out, m) := model_engine c (run_rival (rival r) (base r)) in
      (out, {| base := m; rival := [] |})
  | _ =>
      let (out, m) := model_engine c (base r) in
      (out, {| base := m; rival := rival r |})
  end.

Definition RacingWorld : World := {|
  world := racing;
  engine := racing_engine;
  utcnow := fun r =>
    let (t, m) := model_utcnow (base r) in
    (t, {| base := m; rival := rival r |})
|}.

End Model.

(** Days from 1970-01-01 to a date of the Gregorian calendar. *)
Definition days_from_civil (y m d : Z) : Z :=
  let y := if (m <=? 2)%Z then (y - 1)%Z else y in
  let era := (y / 400)%Z in
  let yoe := (y - era * 400)%Z in
  let doy := ((153 * (if (2 <? m)%Z then m - 3 else m + 9) + 2) / 5 + d - 1)%Z in
  let doe := (yoe * 365 + yoe / 4 - yoe / 100 + doy)%Z in
  (era * 146097 + doe - 719468)%Z.

(** An integer literal, with an optional sign. *)
Fixpoint parse_digits (acc : Z) (s : string) : option Z :=
  match s with
  | EmptyString => Some acc
  | String c r =>
      if is_digit c
      then parse_digits (10 * acc + Z.of_nat (nat_of_ascii c - 48)) r
      else None
  end.

Definition parse_int (s : string) : option Z :=
  match s with
  | EmptyString => None
  | String "-" (String c r) => option_map Z.opp (parse_digits 0 (String c r))
  | _ => parse_digits 0 s
  end.

(** A runtime for the model: a process in UTC, an unset [MEMORY_TABLE_NAME],
    no ordering beyond numbers and strings. *)
#[export] Instance ModelRuntime : @Runtime ReprFloats := {|
  compound_str := fun v => "<" ++ type_name v ++ ">";
  other_lt := fun a b =>
    Raise (TypeError ("'<' not supported between instances of '"
                        ++ type_name a ++ "' and '" ++ type_name b ++ "'"));
  decimal_int := parse_int;
  epoch_seconds := fun t =>
    (days_from_civil (year t) (month t) (day t) * 86400
     + hour t * 3600 + minute t * 60 + second t)%Z;
  MEMORY_TABLE_NAME := "AIMemories"
|}.

(** ** Scenarios *)

(** A stored item with a custom object and an infinite float in it. *)
Definition odd_item : @pyval ReprFloats :=
  VDict [ ("id", VStr "1"); ("x", VObj 0); ("y", VFloat "inf") ].

Definition one_table (name key : string) (rows : list (@pyval ReprFloats))
  : @model ReprFloats :=
  {| tables := [ {| table_name := name; key_names := [key]; pending := 0;
                    items := rows |} ];
     readings := []; page_size := 100; creation_polls := 3 |}.

(** A tool starts on the model with no request sent yet. *)
Definition start (m : @model ReprFloats) : @state ReprFloats ModelWorld :=
  {| env := m; calls := [] |}.

Definition start_racing (r : @racing ReprFloats)
  : @state ReprFloats RacingWorld :=
  @Build_state ReprFloats RacingWorld r [].

Definition memory_table (rows : list (@pyval ReprFloats))
  : @model ReprFloats :=
  one_table "AIMemories" "memory_id" rows.

(** An engine without tables, where a new table needs [polls] polls of the
    waiter to become [ACTIVE]. *)
Definition no_tables (polls : nat) : @model ReprFloats :=
  {| tables := []; readings := []; page_size := 100; creation_polls := polls |}.

Section Requests.
Context `{FL : FloatLib} {RT : Runtime}.

(** The three requests of [ensure_memory_table_exists]. *)
Definition describe_memory_table : api_call :=
  DescribeTable MEMORY_TABLE_NAME.

Definition create_memory_table : api_call :=
  CreateTable MEMORY_TABLE_NAME [("memory_id", "HASH")] [("memory_id", "S")]
    "PAY_PER_REQUEST" None.

Definition wait_memory_table : api_call :=
  WaitTableExists MEMORY_TABLE_NAME.

(** What running a computation gives when it returns. *)
Definition returns {W : World} {A} (m : M A) : Prop :=
  forall s, exists a s', m s = (Ok a, s').

End Requests.

(** A second caller creates the memory table after our describe. *)
Definition raced : @racing ReprFloats :=
  {| base := no_tables 3; rival := [create_memory_table] |}.

(** A memory record as [store_memory_item] writes it. *)
Definition memory (id tldr : string) (tags : list string) (stamp : Z)
  : @pyval ReprFloats :=
  VDict [ ("memory_id", VStr id); ("content", VStr "text");
          ("tldr", VStr tldr); ("hashtags", VList (map VStr tags));
          ("created_at", VStr "2024-05-01T10:00:00");
          ("timestamp", VInt stamp) ].

Definition older : @pyval ReprFloats :=
  memory "mem_20240501_100000_000001" "first" ["#a"] 1714557600.

Definition newer : @pyval ReprFloats :=
  memory "mem_20240502_100000_000002" "second" ["#b"] 1714644000.

Section SortSpec.
Context `{FL : FloatLib} {RT : Runtime}.

(** A sort key that is the number of its item. *)
Definition keyed (p : pyval * pyval) : Prop :=
  DynMemory.num_int (fst p) = Some (timestamp_of (snd p)).

(** The header of the listing and its entries, as [list_recent_memories]
    builds them from the sorted items. *)
Definition recent_listing (limit : Z) (sorted : list pyval) : result string :=
  DynMemory.entries DynMemory.recent_entry
    ("Recent memories (" ++ str_nat (length sorted) ++ "):" ++ nl ++ nl)
    (enumerate 1 (DynMemory.slice_to limit sorted)).

End SortSpec.

(** The clock of the scenarios: 2024-05-03 10:00:00.000003. *)
Definition reading : datetime :=
  {| year := 2024; month := 5; day := 3;
     hour := 10; minute := 0; second := 0; microsecond := 3 |}.

Definition with_clock (ts : list datetime) (m : @model ReprFloats)
  : @model ReprFloats :=
  {| tables := tables m; readings := ts; page_size := page_size m;
     creation_polls := creation_polls m |}.

Section Note.
Context `{FL : FloatLib} {RT : Runtime}.

(** The record of [store_memory_item("remember X", "X is important",
    ["#note"])] made at [t]. *)
Definition stored_note (t : datetime) : pyval :=
  VDict (DynMemory.memory_item t "remember X" "X is important"
           (VList [VStr "#note"]) VNone VNone).

End Note.

(** The items of a table of the model. *)
Definition items_in (name : string) (m : @model ReprFloats)
  : list (@pyval ReprFloats) :=
  match find_table name (tables m) with
  | Some t => items t
  | None => []
  end.

(** The table of the hashtag scenario: four records tagged [#python],
    [#aws], [#python] and [#go]. *)
Definition tagged_rows : list (@pyval ReprFloats) :=
  [ memory "mem_1" "one" ["#python"] 1; memory "mem_2" "two" ["#aws"] 2;
    memory "mem_3" "three" ["#python"] 3; memory "mem_4" "four" ["#go"] 4 ].

(** The listing of the first and the third of them. *)
Definition two_python_records : string :=
  "1. [mem_1]" ++ nl ++ "   TLDR: one" ++ nl
    ++ "   Created: 2024-05-01T10:00:00" ++ nl ++ nl
    ++ "2. [mem_3]" ++ nl ++ "   TLDR: three" ++ nl
    ++ "   Created: 2024-05-01T10:00:00".

(** ** Shapes of values *)

Section Shapes.
Context `{FL : FloatLib}.

(** Whether a Decimal occurs anywhere in a value. *)
Fixpoint has_decimal (v : pyval) : bool :=
  match v with
  | VDecimal _ => true
  | VList l => existsb has_decimal l
  | VDict kvs => existsb (fun kv => has_decimal (snd kv)) kvs
  | _ => false
  end.

(** A value with its floats and Decimals blanked: what is left is the
    nesting, the keys in their order and every other leaf. *)
Fixpoint blanked (v : pyval) : pyval :=
  match v with
  | VFloat _ | VDecimal _ => VNone
  | VList l => VList (map blanked l)
  | VDict kvs => VDict (map (fun kv => (fst kv, blanked (snd kv))) kvs)
  | _ => v
  end.

Definition is_dict (v : pyval) : bool :=
  match v with VDict _ => true | _ => false end.

End Shapes.

(** A stored price, as the engine hands it back. *)
Definition priced : @pyval ReprFloats :=
  VDict [ ("id", VStr "1"); ("price", VDecimal "9.99") ].

(** An item of the application side, with a float in it. *)
Definition scored : @pyval ReprFloats :=
  VDict [ ("id", VStr "1"); ("score", VFloat "3.14") ].

(** An engine out of reach: every request raises [e]. *)
Definition Failing `{FL : FloatLib} (e : exn) : World :=
  {| world := unit;
     engine := fun _ w => (Raise e, w);
     utcnow := fun w => (epoch, w) |}.

Definition start_failing (e : exn) : @state ReprFloats (Failing e) :=
  @Build_state ReprFloats (Failing e) tt [].

(** The errors of the scenarios: no connection, and no permission. *)
Definition unreachable : exn :=
  OtherError "EndpointConnectionError" "Could not connect to the endpoint URL".

Definition denied : exn :=
  ClientError "AccessDeniedException" "User is not authorized" "DescribeTable".

Section Placeholders.
Context `{FL : FloatLib}.

(** The sort key a call of [create_dynamodb_table] takes into account. *)
Definition range_keys (sort_key : option string) : list string :=
  match sort_key with
  | Some sk => if String.eqb sk "" then [] else [sk]
  | None => []
  end.

(** The request [create_dynamodb_table] builds. *)
Definition create_request (table_name partition_key
    partition_key_type : string) (sort_key : option string)
    (sort_key_type : string) (read_capacity write_capacity : Z) : api_call :=
  CreateTable table_name
    ((partition_key, "HASH")
     :: map (fun sk => (sk, "RANGE")) (range_keys sort_key))
    ((partition_key, partition_key_type)
     :: map (fun sk => (sk, sort_key_type)) (range_keys sort_key))
    "PROVISIONED" (Some (read_capacity, write_capacity)).

(** The request [update_dynamodb_item] builds for a dict of updates. *)
Definition update_request (table_name : string) (key : pyval)
    (updates : list (string * pyval)) : api_call :=
  UpdateItem table_name key
    ("SET " ++ join ", "
                 (map (fun kv => "#" ++ fst kv ++ " = :" ++ fst kv) updates))
    (map (fun kv => ("#" ++ fst kv, fst kv)) updates)
    (map (fun kv => (":" ++ fst kv, _convert_floats_to_decimal (snd kv)))
       updates).

End Placeholders.

(** An engine that does not honour the limit of a scan: it returns all of
    [rows] to every request. *)
Definition Unbounded (rows : list (@pyval ReprFloats)) : @World ReprFloats :=
  {| world := unit;
     engine := fun _ w => (Ok [("Items", VList rows)], w);
     utcnow := fun w => (epoch, w) |}.

Definition start_unbounded (rows : list (@pyval ReprFloats))
  : @state ReprFloats (Unbounded rows) :=
  @Build_state ReprFloats (Unbounded rows) tt [].

(** A call of [store_memory_item] whose hashtags hold a number. *)
Definition numbered_tags : @pyval ReprFloats := VList [VStr "#a"; VInt 7].

(** ** The order of clock readings *)

(** The first comparison that decides. *)
Definition then_compare (c c' : comparison) : comparison :=
  match c with
  | Eq => c'
  | _ => c
  end.

(** The order of two clock readings in time: by year, then month, day,
    hour, minute, second and microsecond. *)
Definition chronological (a b : datetime) : comparison :=
  then_compare (year a ?= year b)%Z
    (then_compare (month a ?= month b)%Z
       (then_compare (day a ?= day b)%Z
          (then_compare (hour a ?= hour b)%Z
             (then_compare (minute a ?= minute b)%Z
                (then_compare (second a ?= second b)%Z
                   (microsecond a ?= microsecond b)%Z))))).

(** One microsecond after the clock of the scenarios. *)
Definition reading_after : datetime :=
  {| year := 2024; month := 5; day := 3;
     hour := 10; minute := 0; second := 0; microsecond := 4 |}.

Section Listing.
Context `{FL : FloatLib} {RT : Runtime}.

(** The items of a list that carry the timestamp [z], in their order. *)
Definition with_timestamp (z : Z) (l : list pyval) : list pyval :=
  filter (fun x => Z.eqb (timestamp_of x) z) l.

Definition is_bytes (v : pyval) : bool :=
  match v with VBytes _ => true | _ => false end.

(** A record one of whose hashtags has no [lower]: it is neither a string
    nor bytes. *)
Definition has_odd_hashtag (item : pyval) : bool :=
  match item with
  | VDict kvs =>
      match lookup "hashtags" kvs with
      | Some (VList tags) =>
          existsb (fun t => negb (is_str t || is_bytes t)) tags
      | _ => false
      end
  | _ => false
  end.

End Listing.

(** Two records of the same second, and the record of a call whose hashtags
    held a number. *)
Definition twin_a : @pyval ReprFloats :=
  memory "mem_a" "a" ["#python"] 1714557600.

Definition twin_b : @pyval ReprFloats :=
  memory "mem_b" "b" ["#python"] 1714557600.

Definition odd_record : @pyval ReprFloats :=
  VDict [ ("memory_id", VStr "mem_odd"); ("tldr", VStr "odd");
          ("hashtags", VList [VStr "#a"; VDecimal "7"]);
          ("timestamp", VDecimal "1714557700") ].

(** ** [fetch_webpage_content] *)

(** What [subprocess.run] hands back when the process has ended. *)
Record completed_process : Type := {
  returncode : Z;
  stdout : string;
  stderr : string
}.

Set Warnings "-abstract-large-number".
Definition content_limit : nat := 10000.
Set Warnings "+abstract-large-number".

Definition truncation_note : string := nl ++ nl ++ "[Content truncated...]".

(** [s[:n]]. *)
Definition take (n : nat) (s : string) : string := String.substring 0 n s.

(** The content [fetch_webpage_content] returns for the output of a run that
    ended with code 0. *)
Definition limited (content : string) : string :=
  if (content_limit <? String.length content)%nat
  then take content_limit content ++ truncation_note
  else content.

(** [fetch_webpage_content]: [web2markdown_path] and [path_exists] are what
    [os.path] answers, [run] is [subprocess.run] on the script with the URL
    as its input, which ends, raises [TimeoutExpired] or raises something
    else. *)
Definition fetch_webpage_content (web2markdown_path : string)
    (path_exists : bool) (run : string -> result completed_process)
    (url : string) : string :=
  if negb path_exists
  then "Error: web2markdown.py not found at " ++ web2markdown_path
  else
    match run url with
    | Ok result =>
        if (returncode result =? 0)%Z
        then limited (strip (stdout result))
        else "Error fetching webpage: " ++ stderr result
    | Raise (OtherError "TimeoutExpired" _) =>
        "Error: Timeout while fetching webpage"
    | Raise e => "Error: " ++ str_exn e
    end.

(** The sum of the lengths of a list of strings. *)
Definition total_length (l : list string) : nat :=
  fold_right (fun u n => (String.length u + n)%nat) 0%nat l.

(** A run that prints a short page. *)
Definition short_page (url : string) : result completed_process :=
  Ok {| returncode := 0; stdout := "# " ++ url ++ nl; stderr := "" |}.

Section RequestTables.
Context `{FL : FloatLib}.

(** The table a request is about, if it is about one. *)
Definition request_table (c : api_call) : option string :=
  match c with
  | DescribeTable name | CreateTable name _ _ _ _ | WaitTableExists name
  | DeleteTable name | PutItem name _ | GetItem name _
  | UpdateItem name _ _ _ _ | DeleteItem name _ | Scan name _ _
  | Query name _ _ _ => Some name
  | ListTables => None
  end.

End RequestTables.

(** * Properties *)

(** ** The definitions on small inputs *)

Example str_Z_samples :
  (str_Z 0, str_Z 10, str_Z (-5), str_Z 1714557600)
  = ("0", "10", "-5", "1714557600").
Proof. reflexivity. Qed.

Example fixed_digits_samples :
  (fixed_digits 2 7, fixed_digits 6 3) = ("07", "000003").
Proof. reflexivity. Qed.

Example text_samples :
  (lower "#PyThon_9", strip ("  a b " ++ nl ++ nl)) = ("#python_9", "a b").
Proof. reflexivity. Qed.

Example clock_samples :
  (strftime_id reading, isoformat reading, epoch_seconds reading)
  = ("20240503_100000_000003", "2024-05-03T10:00:00.000003", 1714730400%Z).
Proof. reflexivity. Qed.

Example join_samples :
  py_join ", " (VList [VStr "#a"; VStr "#b"]) = Ok "#a, #b"
  /\ py_join ", " (VList [VStr "#a"; VInt 1])
     = Raise (TypeError "sequence item 1: expected str instance, int found").
Proof. split; reflexivity. Qed.

Example extract_urls_samples :
  extract_urls "http:// https://x http://y<z" = ["https://x"; "http://y"]
  /\ extract_urls "no link here" = [].
Proof. split; reflexivity. Qed.

Example get_item_sample :
  fst (get_dynamodb_item "t" (VDict [("id", VStr "1")])
         (start (one_table "t" "id"
                   [VDict [("id", VStr "1"); ("score", VDecimal "3.14")]])))
  = Ok ("Item found:" ++ nl ++ "  id: 1" ++ nl ++ "  score: 3.14").
Proof. reflexivity. Qed.

Example create_table_samples :
  fst (create_dynamodb_table "t" "id" "S" None "S" 5 5
         (start (one_table "t" "id" [])))
  = Ok "Error: Table 't' already exists"
  /\ fst (create_dynamodb_table "u" "id" "S" (Some "k") "S" 5 5
            (start (one_table "t" "id" [])))
     = Ok "Table 'u' is being created. Status: CREATING".
Proof. split; reflexivity. Qed.

(** ** The value codec *)

Section CodecFacts.
Context `{FL : FloatLib}.

Lemma map_fixes {A} (f : A -> A) (l : list A) :
  Forall (fun x => f x = x) l -> map f l = l.
Proof.
  induction 1 as [|x r Hx _ IH]; simpl; [reflexivity|].
  now rewrite Hx, IH.
Qed.

(** The two modules define the same function. *)
Lemma memory_codec_same (v : pyval) :
  DynMemory._convert_floats_to_decimal v = _convert_floats_to_decimal v.
Proof. reflexivity. Qed.

(** C1. Decoding after encoding gives back every representable value:
    strings, booleans, binary, null, integers, finite floats, and lists and
    string-keyed dicts of them, at any depth, as long as [str] of a finite
    float reads back as that float. *)
Theorem codec_round_trip (v : pyval) :
  repr_round_trips -> representable v = true ->
  _convert_decimal_to_float (_convert_floats_to_decimal v) = v.
Proof.
  intros Hrepr.
  induction v as [ | | | f | | | | l IH | kvs IH | ] using pyval_nested_ind;
    simpl; intros Hv; try reflexivity; try discriminate.
  - now rewrite Hrepr.
  - f_equal. rewrite map_map. apply map_fixes.
    rewrite forallb_forall in Hv. rewrite Forall_forall in *.
    intros x Hx. apply IH; [assumption|]. now apply Hv.
  - f_equal. rewrite map_map. apply map_fixes.
    rewrite forallb_forall in Hv. rewrite Forall_forall in *.
    intros [k x] Hx; simpl. f_equal.
    apply (IH (k, x) Hx). now apply (Hv (k, x)).
Qed.

(** A Decimal that comes in is not given back: it leaves as a float. *)
Lemma decimal_does_not_round_trip (d : pydecimal) :
  _convert_decimal_to_float (_convert_floats_to_decimal (VDecimal d))
  = VFloat (float_of_decimal d).
Proof. reflexivity. Qed.

End CodecFacts.

Lemma repr_floats_round_trip : @repr_round_trips ReprFloats.
Proof. intros f _. reflexivity. Qed.

Lemma codec_round_trip_witness :
  let v : @pyval ReprFloats :=
    VDict [ ("id", VStr "1"); ("score", VFloat "3.14");
            ("nested", VList [ VInt 7; VFloat "0.1"; VNone;
                               VDict [ ("ok", VBool true) ] ]) ] in
  _convert_decimal_to_float (_convert_floats_to_decimal v) = v.
Proof.
  intro v. apply (codec_round_trip v).
  - exact repr_floats_round_trip.
  - reflexivity.
Defined.


Section ToolFacts.
Context `{FL : FloatLib} {RT : Runtime} {W : World}.

Lemma ret_returns {A} (a : A) : returns (ret a).
Proof. intros s. now exists a, s. Qed.

(** A [try] whose clauses catch every exception and whose handlers return
    hands no exception to its caller. *)
Lemma try_returns {A} (body : M A) (clauses : list (except_clause A)) :
  (forall e, exists h, dispatch clauses e = Some h /\ returns h) ->
  returns (try body clauses).
Proof.
  intros Hall s. unfold try.
  destruct (body s) as [[a|e] s']; [now exists a, s'|].
  destruct (Hall e) as (h & -> & Hh). apply Hh.
Qed.



(** C4 (amended). When the create of [ensure_memory_table_exists] fails, for
    instance because the table exists by then, the tool does not wait: it
    returns the message [Error creating table: ...] with the text of the
    create error, after the describe and the create. *)
Theorem ensure_exists_create_error (s : state) message op w1 e w2 :
  engine describe_memory_table (env s)
  = (Raise (ClientError "ResourceNotFoundException" message op), w1) ->
  engine create_memory_table w1 = (Raise e, w2) ->
  DynMemory.ensure_memory_table_exists s
  = (Ok ("Error creating table: " ++ str_exn e),
     {| env := w2;
        calls := (calls s ++ [describe_memory_table;
                              create_memory_table])%list |}).
Proof.
  unfold DynMemory.ensure_memory_table_exists, try, bind, request, ret.
  fold describe_memory_table create_memory_table wait_memory_table.
  intros -> Hc. simpl. rewrite Hc. simpl.
  now rewrite <- !app_assoc.
Qed.

(** An exception of the body, taken through the clauses of the tool. *)
Ltac handled e :=
  destruct e as [?code ?message ?op | ?cls ?text]; simpl;
  try match goal with
      | |- context [String.eqb ?a ?b] => destruct (String.eqb a b)
      end;
  eauto.

(** Every clause list of the tools below ends in [except Exception] and its
    handlers build a string: this settles such a [try]. *)
Ltac catches_all :=
  apply try_returns; intros [code message op | cls text]; simpl;
  try match goal with
      | |- context [String.eqb ?a ?b] => destruct (String.eqb a b)
      end;
  eexists; (split; [reflexivity | apply ret_returns]).


Lemma converted_has_no_float (v : pyval) :
  has_float (_convert_floats_to_decimal v) = false.
Proof.
  induction v as [ | | | | | | | l IH | kvs IH | ] using pyval_nested_ind;
    simpl; try reflexivity.
  - induction IH as [|x r Hx _ IHr]; simpl; [reflexivity|].
    now rewrite Hx, IHr.
  - induction IH as [|[k x] r Hx _ IHr]; simpl in *; [reflexivity|].
    now rewrite Hx, IHr.
Qed.

(** C10. [store_memory_item] sends one put, for an item with the attributes
    [memory_id], [content], [tldr], [hashtags], [created_at] and [timestamp],
    then [source_url] exactly when the argument is truthy, then [metadata]
    exactly when the argument is truthy, the latter with every float turned
    into a Decimal. *)
Theorem stored_item_attributes (content tldr : string)
    (hashtags source_url metadata : pyval) (s : state) :
  let item :=
    DynMemory.memory_item (fst (utcnow (env s))) content tldr hashtags
      source_url metadata in
  calls (snd (DynMemory.store_memory_item content tldr hashtags source_url
                metadata s))
  = (calls s ++ [PutItem MEMORY_TABLE_NAME (VDict item)])%list
  /\ map fst item
     = (["memory_id"; "content"; "tldr"; "hashtags"; "created_at"; "timestamp"]
        ++ (if truthy source_url then ["source_url"] else [])
        ++ (if truthy metadata then ["metadata"] else []))%list
  /\ lookup "source_url" item
     = (if truthy source_url then Some source_url else None)
  /\ lookup "metadata" item
     = (if truthy metadata
        then Some (_convert_floats_to_decimal metadata) else None)
  /\ has_float (_convert_floats_to_decimal metadata) = false
  /\ truthy VNone = false /\ truthy (VStr "") = false
  /\ truthy (VDict []) = false.
Proof.
  intros item. subst item. split.
  - unfold DynMemory.store_memory_item, try, bind, now, request, lift, ret.
    destruct (utcnow (env s)) as [t w0]; simpl.
    destruct (engine _ w0) as [[resp|e] w1]; simpl; [|reflexivity].
    destruct (py_join ", " hashtags); reflexivity.
  - unfold DynMemory.memory_item.
    destruct (truthy source_url), (truthy metadata); simpl;
      repeat split; apply converted_has_no_float.
Qed.

(** *** Sorting by timestamp *)

Lemma py_lt_numbers (a b : pyval) (x y : Z) :
  DynMemory.num_int a = Some x -> DynMemory.num_int b = Some y ->
  DynMemory.py_lt a b = Ok (x <? y)%Z.
Proof. unfold DynMemory.py_lt. now intros -> ->. Qed.

Lemma descending_cons (x : pyval) (l : list pyval) :
  descending (x :: l)
  <-> Forall (fun y => (timestamp_of y <= timestamp_of x)%Z) l /\ descending l.
Proof. reflexivity. Qed.

Lemma insert_desc_sorts (x : pyval * pyval) (l : list (pyval * pyval)) :
  keyed x -> Forall keyed l -> descending (map snd l) ->
  exists l', DynMemory.insert_desc x l = Ok l'
             /\ Permutation (x :: l) l'
             /\ Forall keyed l'
             /\ descending (map snd l').
Proof.
  intros Hx. induction l as [|y r IH]; intros Hl Hd.
  - exists [x]. simpl. split; [reflexivity|].
    split; [reflexivity|]. split; [now constructor|]. now split.
  - inversion Hl as [|? ? Hy Hr]; subst.
    apply descending_cons in Hd. destruct Hd as [Hle Hd].
    simpl. rewrite (py_lt_numbers _ _ _ _ Hx Hy). simpl.
    destruct (Z.ltb_spec (timestamp_of (snd x)) (timestamp_of (snd y)))
      as [Hlt|Hge].
    + destruct (IH Hr Hd) as (l' & -> & Hp & Hk & Hs). simpl.
      exists (y :: l'). split; [reflexivity|]. split; [|split].
      * rewrite perm_swap. now constructor.
      * now constructor.
      * simpl. split; [|assumption].
        eapply Permutation_Forall;
          [apply Permutation_map with (f := snd); eassumption|].
        simpl. constructor; [lia|assumption].
    + exists (x :: y :: r). split; [reflexivity|].
      split; [reflexivity|]. split; [now constructor|].
      simpl. split; [|now split].
      constructor; [lia|].
      eapply Forall_impl; [|eassumption]. simpl. intros; lia.
Qed.

Lemma sort_desc_sorts (l : list (pyval * pyval)) :
  Forall keyed l ->
  exists l', DynMemory.sort_desc l = Ok l'
             /\ Permutation l l'
             /\ Forall keyed l'
             /\ descending (map snd l').
Proof.
  induction 1 as [|x r Hx Hr IH].
  - exists []. simpl. split; [reflexivity|].
    split; [constructor|]. split; [constructor|exact I].
  - destruct IH as (r' & Hs & Hp & Hk & Hd). simpl. rewrite Hs. simpl.
    destruct (insert_desc_sorts x r' Hx Hk Hd) as (l' & -> & Hp' & Hk' & Hd').
    exists l'. split; [reflexivity|]. split; [|now split].
    etransitivity; [|eassumption]. now constructor.
Qed.

Lemma keys_of_int_timestamps (l : list pyval) :
  forallb has_int_timestamp l = true ->
  exists keyed_items,
    traverse (fun x => k <-? DynMemory.timestamp_key x ;; Ok (k, x)) l
    = Ok keyed_items
    /\ map snd keyed_items = l /\ Forall keyed keyed_items.
Proof.
  induction l as [|x r IH]; simpl; intros H.
  - exists []. split; [reflexivity|]. split; [reflexivity|constructor].
  - apply andb_true_iff in H. destruct H as [Hx Hr].
    destruct (IH Hr) as (ks & -> & Hm & Hk).
    destruct x as [ | | | | | | | |kvs| ]; try discriminate. simpl.
    exists ((dict_get kvs "timestamp" (VInt 0), VDict kvs) :: ks).
    split; [reflexivity|]. split; [simpl; now rewrite Hm|].
    constructor; [|assumption].
    unfold keyed, timestamp_of, has_int_timestamp in *. simpl.
    destruct (DynMemory.num_int (dict_get kvs "timestamp" (VInt 0)));
      [reflexivity|discriminate].
Qed.

Lemma sort_by_timestamp_sorts (l : list pyval) :
  forallb has_int_timestamp l = true ->
  exists sorted, DynMemory.sort_by_timestamp (VList l) = Ok sorted
                 /\ Permutation l sorted /\ descending sorted.
Proof.
  intros H. destruct (keys_of_int_timestamps l H) as (ks & Hks & Hm & Hk).
  destruct (sort_desc_sorts ks Hk) as (ks' & Hs & Hp & _ & Hd).
  exists (map snd ks'). simpl. rewrite Hks. simpl. rewrite Hs. simpl.
  split; [reflexivity|]. split; [|assumption].
  rewrite <- Hm. now apply Permutation_map.
Qed.

Lemma slice_to_length {A} (limit : Z) (l : list A) :
  (0 <= limit)%Z -> (length (DynMemory.slice_to limit l) <= Z.to_nat limit)%nat.
Proof.
  intros H. unfold DynMemory.slice_to.
  destruct (Z.ltb_spec limit 0); [lia|]. apply firstn_le_length.
Qed.

(** One scan with the caller's limit, whatever comes back. *)
Lemma list_recent_one_scan (limit : Z) (s : state) :
  exists text,
    DynMemory.list_recent_memories limit s
    = (Ok text,
       {| env := snd (engine (Scan MEMORY_TABLE_NAME (Some limit) None) (env s));
          calls := (calls s ++ [Scan MEMORY_TABLE_NAME (Some limit) None])%list
       |}).
Proof.
  unfold DynMemory.list_recent_memories, try, bind, request, lift, ret.
  destruct (engine _ (env s)) as [[resp|[code message op|cls text]] w1]; simpl.
  - destruct (truthy (dict_get resp "Items" (VList []))); simpl; [|eauto].
    destruct (DynMemory.sort_by_timestamp _) as [sorted|e]; simpl;
      [|handled e].
    destruct (DynMemory.entries _ _ _) as [text|e]; simpl; [eauto|handled e].
  - destruct (String.eqb code _); eauto.
  - eauto.
Qed.

(** *** Rendering memory records *)

Lemma join_of_strings (sep : string) (tags : list pyval) :
  forallb is_str tags = true ->
  exists text, py_join sep (VList tags) = Ok text.
Proof.
  intros H. unfold py_join. simpl.
  assert (forall n, exists parts,
             traverse join_member (enumerate n tags) = Ok parts) as Hall.
  { induction tags as [|t r IH]; intros n; simpl; [now exists []|].
    simpl in H. apply andb_true_iff in H. destruct H as [Ht Hr].
    destruct t; try discriminate. unfold join_member at 1. simpl.
    destruct (IH Hr (S n)) as (parts & ->). simpl. eauto. }
  destruct (Hall 0%nat) as (parts & ->). simpl. eauto.
Qed.

Lemma lookup_has_key (k : string) (kvs : list (string * pyval)) :
  has_key k kvs = true -> exists v, lookup k kvs = Some v.
Proof. unfold has_key. destruct (lookup k kvs); [eauto|discriminate]. Qed.

Lemma hashtags_join (kvs : list (string * pyval)) :
  is_memory_record (VDict kvs) = true ->
  exists text, py_join ", " (dict_get kvs "hashtags" (VList [])) = Ok text.
Proof.
  simpl. intros H. apply andb_true_iff in H. destruct H as [_ H].
  unfold dict_get. destruct (lookup "hashtags" kvs) as [[]|];
    try discriminate; [now apply join_of_strings|].
  now exists "".
Qed.

Lemma recent_entry_returns (i : nat) (item : pyval) :
  is_memory_record item = true ->
  exists text, DynMemory.recent_entry i item = Ok text.
Proof.
  destruct item as [ | | | | | | | |kvs| ]; try discriminate. intros H.
  destruct (hashtags_join kvs H) as (tags & Htags).
  simpl in H. apply andb_true_iff in H. destruct H as [Hid _].
  destruct (lookup_has_key _ _ Hid) as (id & Hlook).
  unfold DynMemory.recent_entry. simpl. rewrite Hlook. simpl.
  rewrite Htags. simpl.
  destruct (has_key "source_url" kvs) eqn:Hsrc; simpl; [|eauto].
  destruct (lookup_has_key _ _ Hsrc) as (url & ->). simpl. eauto.
Qed.

Lemma match_entry_returns (i : nat) (item : pyval) :
  is_memory_record item = true ->
  exists text, DynMemory.match_entry i item = Ok text.
Proof.
  destruct item as [ | | | | | | | |kvs| ]; try discriminate. intros H.
  simpl in H. apply andb_true_iff in H. destruct H as [Hid _].
  destruct (lookup_has_key _ _ Hid) as (id & Hlook).
  unfold DynMemory.match_entry. simpl. rewrite Hlook. simpl. eauto.
Qed.

Lemma entries_return (entry : nat -> pyval -> result string)
    (l : list (nat * pyval)) :
  (forall i x, is_memory_record x = true -> exists text, entry i x = Ok text) ->
  Forall (fun p => is_memory_record (snd p) = true) l ->
  forall acc, exists text, DynMemory.entries entry acc l = Ok text.
Proof.
  intros Hentry. induction 1 as [|[i x] r Hx _ IH]; intros acc; simpl.
  - eauto.
  - destruct (Hentry i x Hx) as (text & ->). simpl. apply IH.
Qed.

Lemma enumerate_snd {A} (n : nat) (l : list A) :
  map snd (enumerate n l) = l.
Proof.
  revert n. induction l as [|x r IH]; intros n; simpl; [reflexivity|].
  now rewrite IH.
Qed.

Lemma enumerate_records (n : nat) (l : list pyval) :
  Forall (fun x => is_memory_record x = true) l ->
  Forall (fun p => is_memory_record (snd p) = true) (enumerate n l).
Proof.
  intros H. revert n. induction H as [|x r Hx _ IH]; intros n; simpl;
    constructor; auto.
Qed.

Lemma in_firstn {A} (n : nat) (l : list A) (x : A) :
  In x (firstn n l) -> In x l.
Proof.
  intros H. rewrite <- (firstn_skipn n l). apply in_or_app. now left.
Qed.

Lemma slice_to_records (limit : Z) (l : list pyval) :
  Forall (fun x => is_memory_record x = true) l ->
  Forall (fun x => is_memory_record x = true) (DynMemory.slice_to limit l).
Proof.
  intros H. unfold DynMemory.slice_to.
  destruct (limit <? 0)%Z; rewrite Forall_forall in *;
    intros x Hx; apply H; eapply in_firstn; eassumption.
Qed.

(** The items of the scan, sorted and cut, are what the listing shows. *)
Lemma list_recent_sorted (limit : Z) (s : state) resp w1 items :
  engine (Scan MEMORY_TABLE_NAME (Some limit) None) (env s) = (Ok resp, w1) ->
  dict_get resp "Items" (VList []) = VList items ->
  items <> [] ->
  forallb is_memory_record items = true ->
  forallb has_int_timestamp items = true ->
  exists sorted text,
    Permutation items sorted /\ descending sorted
    /\ recent_listing limit sorted = Ok text
    /\ fst (DynMemory.list_recent_memories limit s) = Ok (strip text).
Proof.
  intros Hscan Hitems Hne Hrec Hint.
  destruct (sort_by_timestamp_sorts items Hint) as (sorted & Hs & Hp & Hd).
  assert (Forall (fun x => is_memory_record x = true) sorted) as Hsorted.
  { eapply Permutation_Forall; [eassumption|].
    apply Forall_forall. now apply forallb_forall. }
  destruct (entries_return DynMemory.recent_entry
              (enumerate 1 (DynMemory.slice_to limit sorted))
              recent_entry_returns
              (enumerate_records _ _ (slice_to_records limit _ Hsorted))
              ("Recent memories (" ++ str_nat (length sorted) ++ "):"
                 ++ nl ++ nl)) as (text & Htext).
  exists sorted, text. split; [assumption|]. split; [assumption|].
  split; [exact Htext|].
  unfold DynMemory.list_recent_memories, try, bind, request, lift, ret.
  rewrite Hscan. simpl. rewrite Hitems.
  destruct items as [|x r]; [contradiction|].
  change (truthy (VList (x :: r))) with true. cbv beta iota delta [negb].
  rewrite Hs. unfold recent_listing in Htext.
  simpl in Htext |- *. rewrite Htext. reflexivity.
Qed.

(** [ensure_memory_table_exists] is not one of them: its outer [try] has the
    [ClientError] clause only, so any other exception of the describe goes on
    to the caller. *)
Lemma ensure_exists_lets_others_through (s : state) cls text w1 :
  engine describe_memory_table (env s) = (Raise (OtherError cls text), w1) ->
  DynMemory.ensure_memory_table_exists s
  = (Raise (OtherError cls text),
     {| env := w1; calls := (calls s ++ [describe_memory_table])%list |}).
Proof.
  unfold DynMemory.ensure_memory_table_exists, try, bind, request, ret.
  fold describe_memory_table. now intros ->.
Qed.

End ToolFacts.


(** The memory table appears between the describe and the create: the tool
    reports the create error and never waits. *)
Lemma ensure_exists_race_is_an_error :
  let out := DynMemory.ensure_memory_table_exists (start_racing raced) in
  fst out
  = Ok "Error creating table: An error occurred (ResourceInUseException) when calling the CreateTable operation: Table already exists: AIMemories"
  /\ calls (snd out) = [describe_memory_table; create_memory_table]
  /\ ~ In wait_memory_table (calls (snd out)).
Proof.
  vm_compute. repeat split. intros [H|[H|[]]]; discriminate.
Qed.

Lemma ensure_exists_create_error_witness :
  fst (DynMemory.ensure_memory_table_exists (start_racing raced))
  = Ok "Error creating table: An error occurred (ResourceInUseException) when calling the CreateTable operation: Table already exists: AIMemories".
Proof.
  exact (f_equal fst
           (ensure_exists_create_error (start_racing raced)
              _ _ _ _ _ eq_refl eq_refl)).
Defined.

(** ** The shape of the ids *)

Lemma append_assoc (a b c : string) : (a ++ b) ++ c = a ++ (b ++ c).
Proof. induction a as [|x a IH]; simpl; [reflexivity|now rewrite IH]. Qed.

Lemma append_empty (a : string) : a ++ "" = a.
Proof. induction a as [|x a IH]; simpl; [reflexivity|now rewrite IH]. Qed.

Lemma append_length (a b : string) :
  String.length (a ++ b) = (String.length a + String.length b)%nat.
Proof. induction a as [|x a IH]; simpl; [reflexivity|now rewrite IH]. Qed.

Lemma digit_char_is_digit (d : Z) :
  (0 <= d < 10)%Z -> is_digit (digit_char d) = true.
Proof.
  intros H.
  assert (d = 0 \/ d = 1 \/ d = 2 \/ d = 3 \/ d = 4 \/ d = 5 \/ d = 6
          \/ d = 7 \/ d = 8 \/ d = 9)%Z as Hd by lia.
  repeat (destruct Hd as [->|Hd]; [reflexivity|]). now subst.
Qed.

Lemma take_digits_step (k : nat) (c : ascii) (rest : string) :
  take_digits (S k) (String c rest)
  = if is_digit c then take_digits k rest else None.
Proof. reflexivity. Qed.

(** The digits of a padded field are read back as digits. *)
Lemma take_fixed_digits (w k : nat) (n : Z) (rest : string) :
  take_digits (w + k) (fixed_digits w n ++ rest) = take_digits k rest.
Proof.
  revert k n rest. induction w as [|w IH]; intros k n rest; [reflexivity|].
  simpl fixed_digits. rewrite append_assoc.
  replace (S w + k)%nat with (w + S k)%nat by lia. rewrite IH.
  change (String (digit_char (n mod 10)) "" ++ rest)
    with (String (digit_char (n mod 10)) rest).
  rewrite take_digits_step, digit_char_is_digit; [reflexivity|].
  apply Z.mod_pos_bound. lia.
Qed.

Lemma take_digits_stops (k : nat) (c : ascii) (rest : string) :
  is_digit c = false -> take_digits (S k) (String c rest) = None.
Proof. intros H. now rewrite take_digits_step, H. Qed.

Lemma four_digit_years_check :
  forallb (fun k => String.eqb (str_Z (1000 + Z.of_nat k))
                      (fixed_digits 4 (1000 + Z.of_nat k)))
    (seq 0 (90 * 100)) = true.
Proof. vm_compute. reflexivity. Qed.

Lemma four_digit_year (y : Z) :
  (1000 <= y <= 9999)%Z -> str_Z y = fixed_digits 4 y.
Proof.
  intros H. pose proof four_digit_years_check as Hall.
  rewrite forallb_forall in Hall.
  specialize (Hall (Z.to_nat (y - 1000))).
  replace (1000 + Z.of_nat (Z.to_nat (y - 1000)))%Z with y in Hall by lia.
  apply String.eqb_eq, Hall, in_seq. lia.
Qed.

Lemma digit_groups_cons (w w' : nat) (ws : list nat) (s : string) :
  digit_groups (w :: w' :: ws) s
  = match take_digits w s with
    | Some (String c r) => Ascii.eqb c "_" && digit_groups (w' :: ws) r
    | _ => false
    end.
Proof. reflexivity. Qed.

Lemma digit_groups_last (w : nat) (s : string) :
  digit_groups [w] s
  = match take_digits w s with
    | Some EmptyString => true
    | _ => false
    end.
Proof. reflexivity. Qed.

(** A group of digits followed by an underscore and more. *)
Lemma group_then_more (w w' : nat) (ws : list nat) (digits rest : string) :
  take_digits w (digits ++ "_" ++ rest) = Some ("_" ++ rest) ->
  digit_groups (w :: w' :: ws) (digits ++ "_" ++ rest)
  = digit_groups (w' :: ws) rest.
Proof. intros H. now rewrite digit_groups_cons, H. Qed.

(** The id is [mem_], eight digits, six digits and six digits, with an
    underscore between the groups; it is not fourteen digits and six. *)
Lemma memory_id_shape (t : datetime) :
  valid_datetime t ->
  code_id_pattern (DynMemory.memory_id_of t) = true
  /\ spec_id_pattern (DynMemory.memory_id_of t) = false.
Proof.
  intros (Hy & _).
  unfold code_id_pattern, spec_id_pattern, id_pattern,
    DynMemory.memory_id_of, strftime_id.
  rewrite (four_digit_year _ Hy).
  change (String.prefix "mem_" ("mem_" ++ ?s)) with true.
  cbn [andb]. change (drop 4 ("mem_" ++ ?s)) with s.
  set (date := fixed_digits 4 (year t) ++ fixed_digits 2 (month t)
               ++ fixed_digits 2 (day t)).
  set (time := fixed_digits 2 (hour t) ++ fixed_digits 2 (minute t)
               ++ fixed_digits 2 (second t)).
  set (micros := fixed_digits 6 (microsecond t)).
  replace (fixed_digits 4 (year t) ++ fixed_digits 2 (month t)
           ++ fixed_digits 2 (day t) ++ "_" ++ fixed_digits 2 (hour t)
           ++ fixed_digits 2 (minute t) ++ fixed_digits 2 (second t)
           ++ "_" ++ micros)
    with (date ++ "_" ++ time ++ "_" ++ micros)
    by (subst date time; now rewrite !append_assoc).
  assert (forall k rest, take_digits (8 + k) (date ++ rest)
                         = take_digits k rest) as Hdate.
  { intros k rest. subst date. rewrite !append_assoc.
    rewrite (take_fixed_digits 4 (4 + k)), (take_fixed_digits 2 (2 + k)).
    apply (take_fixed_digits 2 k). }
  assert (forall k rest, take_digits (6 + k) (time ++ rest)
                         = take_digits k rest) as Htime.
  { intros k rest. subst time. rewrite !append_assoc.
    rewrite (take_fixed_digits 2 (4 + k)), (take_fixed_digits 2 (2 + k)).
    apply (take_fixed_digits 2 k). }
  split.
  - rewrite group_then_more by apply (Hdate 0%nat).
    rewrite group_then_more by apply (Htime 0%nat).
    rewrite digit_groups_last, <- (append_empty micros). subst micros.
    now rewrite (take_fixed_digits 6 0).
  - rewrite digit_groups_cons, (Hdate 6%nat).
    change ("_" ++ ?s) with (String "_" s).
    now rewrite take_digits_stops.
Qed.

(** ** Storing a memory, then listing *)

Section StoreThenList.
Context `{FL : FloatLib} {RT : Runtime} {W : World}.

Lemma stored_note_is_record (t : datetime) :
  forallb is_memory_record [stored_note t] = true
  /\ forallb has_int_timestamp [stored_note t] = true.
Proof. split; reflexivity. Qed.


End StoreThenList.



(** ** Listing the recent memories *)

(** C7. [list_recent_memories] sends one scan, with the caller's limit, and
    nothing else; the memory records that scan returns are sorted by
    descending timestamp and cut to the limit, so at most [limit] of them are
    shown; a record the scan did not return is not shown, however recent:
    with two records in the table and a limit of one, the older one, which
    the scan walks first, is the answer. *)
Theorem list_recent_is_one_sorted_page :
  (forall (FL : FloatLib) (RT : Runtime) (W : World) (limit : Z) (s : state),
     (exists text,
        DynMemory.list_recent_memories limit s
        = (Ok text,
           {| env := snd (engine (Scan MEMORY_TABLE_NAME (Some limit) None)
                            (env s));
              calls := (calls s
                        ++ [Scan MEMORY_TABLE_NAME (Some limit) None])%list
           |}))
     /\ forall resp w1 items,
          engine (Scan MEMORY_TABLE_NAME (Some limit) None) (env s)
          = (Ok resp, w1) ->
          dict_get resp "Items" (VList []) = VList items ->
          items <> [] ->
          forallb is_memory_record items = true ->
          forallb has_int_timestamp items = true ->
          exists sorted text,
            Permutation items sorted /\ descending sorted
            /\ ((0 <= limit)%Z ->
                (length (DynMemory.slice_to limit sorted)
                 <= Z.to_nat limit)%nat)
            /\ recent_listing limit sorted = Ok text
            /\ fst (DynMemory.list_recent_memories limit s)
               = Ok (strip text))
  /\ (timestamp_of older < timestamp_of newer)%Z
  /\ fst (DynMemory.list_recent_memories 1
            (start (memory_table [older; newer])))
     = Ok ("Recent memories (1):" ++ nl ++ nl
             ++ "1. [mem_20240501_100000_000001]" ++ nl
             ++ "   TLDR: first" ++ nl
             ++ "   Hashtags: #a" ++ nl
             ++ "   Created: 2024-05-01T10:00:00").
Proof.
  split; [|split; [reflexivity|vm_compute; reflexivity]].
  intros FL RT W limit s. split; [apply list_recent_one_scan|].
  intros resp w1 items Hscan Hitems Hne Hrec Hint.
  destruct (list_recent_sorted limit s resp w1 items Hscan Hitems Hne Hrec Hint)
    as (sorted & text & Hp & Hd & Htext & Hres).
  exists sorted, text.
  split; [assumption|]. split; [assumption|].
  split; [apply slice_to_length|]. split; assumption.
Qed.

Lemma list_recent_is_one_sorted_page_witness :
  exists sorted text,
    Permutation [older; newer] sorted /\ descending sorted
    /\ ((0 <= 5)%Z ->
        (length (DynMemory.slice_to 5 sorted) <= Z.to_nat 5)%nat)
    /\ recent_listing 5 sorted = Ok text
    /\ fst (DynMemory.list_recent_memories 5
              (start (memory_table [older; newer])))
       = Ok (strip text).
Proof.
  exact (proj2 (proj1 list_recent_is_one_sorted_page
                  ReprFloats ModelRuntime ModelWorld 5%Z
                  (start (memory_table [older; newer])))
           _ _ _ eq_refl eq_refl ltac:(discriminate) eq_refl eq_refl).
Defined.

(** ** Searching by hashtag *)

Section Search.
Context `{FL : FloatLib} {RT : Runtime} {W : World}.

Lemma lowered_tags (tags : list pyval) :
  forallb is_str tags = true ->
  exists lowered,
    traverse DynMemory.tag_lower tags = Ok lowered
    /\ forall h, existsb (DynMemory.str_equals h) lowered
                 = existsb (fun t => String.eqb h (lower t)) (tag_strings tags).
Proof.
  induction tags as [|t r IH]; simpl; intros H.
  - exists []. split; reflexivity.
  - apply andb_true_iff in H. destruct H as [Ht Hr].
    destruct t; try discriminate.
    destruct (IH Hr) as (lowered & -> & Hex). simpl.
    eexists. split; [reflexivity|].
    intros h. simpl. now rewrite Hex.
Qed.

Lemma has_hashtag_tagged (tag : string) (item : pyval) :
  is_memory_record item = true ->
  DynMemory.has_hashtag tag item = Ok (tagged tag item).
Proof.
  destruct item as [ | | | | | | | |kvs| ]; try discriminate.
  simpl. intros H. apply andb_true_iff in H. destruct H as [_ H].
  unfold DynMemory.has_hashtag, tagged, hashtags_of, get, dict_get.
  destruct (lookup "hashtags" kvs) as [[ | | | | | | |tags| | ]|];
    try discriminate; [|reflexivity].
  simpl. destruct (lowered_tags tags H) as (lowered & -> & Hex).
  simpl. now rewrite Hex.
Qed.

Lemma select_is_filter (tag : string) (l : list pyval) :
  forallb is_memory_record l = true ->
  DynMemory.select (DynMemory.has_hashtag tag) l = Ok (filter (tagged tag) l).
Proof.
  induction l as [|x r IH]; simpl; intros H; [reflexivity|].
  apply andb_true_iff in H. destruct H as [Hx Hr].
  rewrite (has_hashtag_tagged tag x Hx), (IH Hr). reflexivity.
Qed.

Lemma render_matches_returns (tag : string) (l : list pyval) :
  Forall (fun x => is_memory_record x = true) l ->
  exists text, DynMemory.render_matches tag l = Ok text.
Proof.
  intros H. unfold DynMemory.render_matches.
  destruct l as [|x r]; [eauto|].
  destruct (entries_return DynMemory.match_entry (enumerate 1 (x :: r))
              match_entry_returns (enumerate_records _ _ H)
              ("Memories with " ++ tag ++ " ("
                 ++ str_nat (length (x :: r)) ++ "):" ++ nl ++ nl))
    as (text & ->).
  simpl. eauto.
Qed.

(** The search on a scan of memory records: one unbounded scan, then the
    records that carry the normalised tag, letter case apart. *)
Lemma search_selects_tagged (hashtag : string) (s : state) resp w1 rows :
  engine (Scan MEMORY_TABLE_NAME None None) (env s) = (Ok resp, w1) ->
  dict_get resp "Items" (VList []) = VList rows ->
  forallb is_memory_record rows = true ->
  exists text,
    DynMemory.render_matches (DynMemory.normalize_hashtag hashtag)
      (filter (tagged (DynMemory.normalize_hashtag hashtag)) rows) = Ok text
    /\ DynMemory.search_memories_by_hashtag hashtag s
       = (Ok text,
          {| env := w1;
             calls := (calls s ++ [Scan MEMORY_TABLE_NAME None None])%list |}).
Proof.
  intros Hscan Hrows Hrec.
  set (tag := DynMemory.normalize_hashtag hashtag).
  destruct (render_matches_returns tag (filter (tagged tag) rows))
    as (text & Htext).
  { apply Forall_forall. intros x Hx. apply filter_In in Hx.
    rewrite forallb_forall in Hrec. now apply Hrec. }
  exists text. split; [assumption|].
  unfold DynMemory.search_memories_by_hashtag, try, bind, request, lift, ret.
  fold tag. rewrite Hscan. cbv beta iota. rewrite Hrows.
  cbn [iterate]. rewrite (select_is_filter tag rows Hrec), Htext.
  reflexivity.
Qed.

End Search.



(** ** Extracting URLs *)

Lemma prefix_split (p s : string) :
  String.prefix p s = true -> s = p ++ drop (String.length p) s.
Proof.
  revert s. induction p as [|a p IH]; intros s H; [reflexivity|].
  destruct s as [|b s]; [discriminate|]. simpl in H.
  destruct (ascii_dec a b) as [->|]; [|discriminate].
  simpl. f_equal. now apply IH.
Qed.

Lemma take_while_split (p : ascii -> bool) (s : string) :
  s = take_while p s ++ drop (String.length (take_while p s)) s.
Proof.
  induction s as [|c s IH]; [reflexivity|]. simpl.
  destruct (p c); [|reflexivity]. simpl. now f_equal.
Qed.

Lemma take_while_idem (p : ascii -> bool) (s : string) :
  take_while p (take_while p s) = take_while p s.
Proof.
  induction s as [|c s IH]; [reflexivity|]. simpl.
  destruct (p c) eqn:Hc; [|reflexivity]. simpl. now rewrite Hc, IH.
Qed.

Lemma take_while_extends (p : ascii -> bool) (s after : string) :
  take_while p s <> "" -> take_while p (s ++ after) <> "".
Proof.
  destruct s as [|c s]; simpl; [congruence|].
  destruct (p c); [discriminate|congruence].
Qed.

Lemma drop_append (a b : string) : drop (String.length a) (a ++ b) = b.
Proof. induction a as [|c a IH]; [now destruct b|exact IH]. Qed.

Lemma drop_drop (a b : nat) (s : string) :
  drop a (drop b s) = drop (b + a) s.
Proof.
  revert s. induction b as [|b IH]; intros s; [reflexivity|].
  destruct s as [|c s]; simpl; [now destruct a|apply IH].
Qed.

(** A match is a scheme and a non-empty run of characters of the class. *)
Lemma match_url_at_parts (s m : string) :
  match_url_at s = Some m ->
  exists sch body,
    (sch = "https://" \/ sch = "http://")
    /\ m = sch ++ body /\ body <> ""
    /\ take_while url_char body = body
    /\ s = m ++ drop (String.length m) s.
Proof.
  unfold match_url_at. intros H.
  assert (forall sch,
             String.prefix sch s = true ->
             match take_while url_char (drop (String.length sch) s) with
             | "" => None
             | body => Some (sch ++ body)
             end = Some m ->
             exists body, m = sch ++ body /\ body <> ""
                          /\ take_while url_char body = body
                          /\ s = m ++ drop (String.length m) s) as Hparts.
  { intros sch Hpre Hm.
    set (x := drop (String.length sch) s) in *.
    exists (take_while url_char x).
    destruct (take_while url_char x) as [|c body] eqn:Hbody; [discriminate|].
    injection Hm as <-. rewrite <- Hbody.
    split; [reflexivity|]. split; [rewrite Hbody; discriminate|].
    split; [apply take_while_idem|].
    rewrite append_length. rewrite append_assoc.
    rewrite (prefix_split sch s Hpre) at 1. fold x. f_equal.
    replace (drop (String.length sch + String.length (take_while url_char x)) s)
      with (drop (String.length (take_while url_char x)) x).
    - apply take_while_split.
    - subst x. apply drop_drop. }
  destruct (String.prefix "https://" s) eqn:Hs.
  - destruct (Hparts _ Hs H) as (body & ?). exists "https://", body. tauto.
  - destruct (String.prefix "http://" s) eqn:Hp; [|discriminate].
    destruct (Hparts _ Hp H) as (body & ?). exists "http://", body. tauto.
Qed.

Lemma prefix_append (p x : string) : String.prefix p (p ++ x) = true.
Proof.
  induction p as [|c p IH]; simpl; [now destruct x|].
  destruct (ascii_dec c c); [exact IH|congruence].
Qed.

(** A scheme followed by such a run is matched up to the end of the run. *)
Lemma match_url_at_built (sch x : string) :
  sch = "https://" \/ sch = "http://" ->
  take_while url_char x <> "" ->
  match_url_at (sch ++ x) = Some (sch ++ take_while url_char x).
Proof.
  intros Hsch Hrun. unfold match_url_at.
  destruct Hsch as [-> | ->].
  - rewrite prefix_append, drop_append.
    destruct (take_while url_char x); [congruence|reflexivity].
  - change (String.prefix "https://" ("http://" ++ x)) with false.
    rewrite prefix_append, drop_append.
    destruct (take_while url_char x); [congruence|reflexivity].
Qed.

Lemma match_is_url (s m : string) :
  match_url_at s = Some m -> is_url m = true.
Proof.
  intros H.
  destruct (match_url_at_parts s m H)
    as (sch & body & Hsch & -> & Hne & Hbody & _).
  unfold is_url. rewrite match_url_at_built, Hbody; [|assumption|congruence].
  apply String.eqb_refl.
Qed.

Lemma url_still_matches (u after : string) :
  is_url u = true -> match_url_at (u ++ after) <> None.
Proof.
  unfold is_url. destruct (match_url_at u) as [m|] eqn:H; [|discriminate].
  intros Heq. apply String.eqb_eq in Heq. subst m.
  destruct (match_url_at_parts u u H)
    as (sch & body & Hsch & -> & Hne & Hbody & _).
  rewrite append_assoc, match_url_at_built; [discriminate|assumption|].
  apply take_while_extends. congruence.
Qed.

Lemma take_while_all (p : ascii -> bool) (s : string) :
  take_while p s = s <-> all_chars p s = true.
Proof.
  induction s as [|c s IH]; simpl; [tauto|].
  destruct (p c); simpl; [|split; discriminate].
  rewrite <- IH. split; [now intros [= ->]|now intros ->].
Qed.

(** The strings the pattern matches as a whole are the absolute URLs. *)
Lemma is_url_absolute (u : string) : is_url u = true <-> absolute_url u.
Proof.
  unfold is_url. split.
  - destruct (match_url_at u) as [m|] eqn:H; [|discriminate].
    intros Heq. apply String.eqb_eq in Heq. subst m.
    destruct (match_url_at_parts u u H)
      as (sch & body & Hsch & Hu & Hne & Hbody & _).
    exists sch, body. rewrite <- take_while_all. tauto.
  - intros (sch & body & Hsch & -> & Hne & Hall).
    apply take_while_all in Hall.
    rewrite match_url_at_built, Hall; [|assumption|congruence].
    apply String.eqb_refl.
Qed.

Lemma skip_matched (a rest : string) :
  findall_urls (String.length a) (a ++ rest) = findall_urls 0 rest.
Proof.
  induction a as [|c a IH]; simpl; [now destruct rest|exact IH].
Qed.

Lemma scanned_findall (n : nat) (s : string) :
  (String.length s <= n)%nat -> scanned s (findall_urls 0 s).
Proof.
  revert s. induction n as [|n IH]; intros s Hlen.
  - destruct s; [constructor|simpl in Hlen; lia].
  - destruct s as [|c r]; [constructor|].
    simpl in Hlen. cbn [findall_urls].
    destruct (match_url_at (String c r)) as [m|] eqn:Hm.
    + destruct (match_url_at_parts _ _ Hm)
        as (sch & body & Hsch & Hmeq & _ & _ & Hs).
      remember (drop (String.length m) (String c r)) as rest eqn:Hrest.
      clear Hrest.
      destruct m as [|c' m'];
        [destruct Hsch as [-> | ->]; discriminate|].
      simpl in Hs. injection Hs as Hc Hr. subst c' r.
      replace (String.length (String c m') - 1)%nat with (String.length m')
        by (simpl; lia).
      rewrite skip_matched.
      change (String c (m' ++ rest)) with (String c m' ++ rest) in *.
      apply scanned_match.
      * exact Hm.
      * apply IH. rewrite append_length in Hlen. lia.
    + apply scanned_gap; [exact Hm|]. apply IH. lia.
Qed.

Lemma occurs_in_later (u s : string) (c : ascii) :
  occurs_in u s -> occurs_in u (String c s).
Proof.
  intros (before & after & ->). now exists (String c before), after.
Qed.

Lemma occurs_in_after (u s pre : string) :
  occurs_in u s -> occurs_in u (pre ++ s).
Proof.
  induction pre as [|c pre IH]; intros H; [exact H|].
  simpl. now apply occurs_in_later, IH.
Qed.

Lemma scanned_sound (s : string) (found : list string) :
  scanned s found ->
  Forall (fun u => is_url u = true /\ occurs_in u s) found.
Proof.
  induction 1 as [|c r found Hnone _ IH|m rest found Hm _ IH].
  - constructor.
  - eapply Forall_impl; [|exact IH].
    intros u [Hu Hin]. split; [assumption|now apply occurs_in_later].
  - constructor.
    + split; [eapply match_is_url; eassumption|now exists "", rest].
    + eapply Forall_impl; [|exact IH].
      intros u [Hu Hin]. split; [assumption|now apply occurs_in_after].
Qed.

Lemma scanned_nothing (s : string) :
  scanned s [] -> forall before rest, s = before ++ rest ->
  match_url_at rest = None.
Proof.
  intros H. remember [] as found eqn:Hfound.
  induction H as [|c r found Hnone _ IH|]; [| |discriminate];
    intros before rest Hs.
  - destruct before; [simpl in Hs; now subst|discriminate].
  - destruct before as [|c' before]; simpl in Hs.
    + now subst.
    + injection Hs as _ ->. now apply (IH Hfound before).
Qed.

(** C8. [extract_urls] reads the text from left to right and returns the
    matches of the pattern in the order they start, a repeated URL as often
    as it occurs; each one is a piece of the text that the pattern matches as
    a whole; the list is empty exactly when no piece of the text is such a
    match. *)
Theorem extract_urls_in_order (text : string) :
  scanned text (extract_urls text)
  /\ Forall (fun u => absolute_url u /\ occurs_in u text) (extract_urls text)
  /\ (extract_urls text = []
      <-> forall u, absolute_url u -> ~ occurs_in u text)
  /\ extract_urls
       "see https://a.b/c?d=1 and http://x.y, then <https://a.b/c?d=1>"
     = ["https://a.b/c?d=1"; "http://x.y,"; "https://a.b/c?d=1"].
Proof.
  assert (scanned text (extract_urls text)) as Hscan
    by (apply (scanned_findall (String.length text)); lia).
  pose proof (scanned_sound _ _ Hscan) as Hsound.
  split; [assumption|]. split; [|split; [|reflexivity]].
  - eapply Forall_impl; [|exact Hsound].
    intros u [Hu Hin]. split; [now apply is_url_absolute|assumption].
  - split.
    + intros Hnone u Hu (before & after & Htext).
      rewrite Hnone in Hscan. apply is_url_absolute in Hu.
      apply (url_still_matches u after Hu).
      now apply (scanned_nothing _ Hscan before).
    + intros Hno. destruct (extract_urls text) as [|m found]; [reflexivity|].
      inversion Hsound as [|? ? [Hm Hin] _]; subst.
      apply is_url_absolute in Hm. now destruct (Hno m Hm).
Qed.

(** * Further properties *)

(** ** The codec *)

Section CodecShape.
Context `{FL : FloatLib}.

Lemma existsb_all_false {A} (f : A -> bool) (l : list A) :
  Forall (fun x => f x = false) l -> existsb f l = false.
Proof.
  induction 1 as [|x r Hx _ IH]; simpl; [reflexivity|]. now rewrite Hx, IH.
Qed.

Lemma existsb_false_all {A} (f : A -> bool) (l : list A) :
  existsb f l = false -> Forall (fun x => f x = false) l.
Proof.
  induction l as [|x r IH]; simpl; intros H; [constructor|].
  apply orb_false_iff in H. destruct H. constructor; auto.
Qed.

Lemma decoded_has_no_decimal (v : pyval) :
  has_decimal (_convert_decimal_to_float v) = false.
Proof.
  induction v as [ | | | | | | | l IH | kvs IH | ] using pyval_nested_ind;
    simpl; try reflexivity.
  - induction IH as [|x r Hx _ IHr]; simpl; [reflexivity|].
    now rewrite Hx, IHr.
  - induction IH as [|[k x] r Hx _ IHr]; simpl in *; [reflexivity|].
    now rewrite Hx, IHr.
Qed.

Lemma encode_fixes_float_free (v : pyval) :
  has_float v = false -> _convert_floats_to_decimal v = v.
Proof.
  induction v as [ | | | | | | | l IH | kvs IH | ] using pyval_nested_ind;
    simpl; intros H; try reflexivity; try discriminate.
  - f_equal. apply map_fixes. apply existsb_false_all in H.
    rewrite Forall_forall in *. intros x Hx. now apply IH, H.
  - f_equal. apply map_fixes. apply existsb_false_all in H.
    rewrite Forall_forall in *. intros [k x] Hx. simpl. f_equal.
    now apply (IH (k, x) Hx), (H (k, x)).
Qed.

Lemma decode_fixes_decimal_free (v : pyval) :
  has_decimal v = false -> _convert_decimal_to_float v = v.
Proof.
  induction v as [ | | | | | | | l IH | kvs IH | ] using pyval_nested_ind;
    simpl; intros H; try reflexivity; try discriminate.
  - f_equal. apply map_fixes. apply existsb_false_all in H.
    rewrite Forall_forall in *. intros x Hx. now apply IH, H.
  - f_equal. apply map_fixes. apply existsb_false_all in H.
    rewrite Forall_forall in *. intros [k x] Hx. simpl. f_equal.
    now apply (IH (k, x) Hx), (H (k, x)).
Qed.

(** X1. Encoding changes a value exactly when a float occurs in it, its
    result holds no float, and encoding a second time changes nothing. *)
Theorem encode_only_touches_floats (v : pyval) :
  (_convert_floats_to_decimal v = v <-> has_float v = false)
  /\ has_float (_convert_floats_to_decimal v) = false
  /\ _convert_floats_to_decimal (_convert_floats_to_decimal v)
     = _convert_floats_to_decimal v.
Proof.
  pose proof (converted_has_no_float v) as Hfree.
  split; [split|split].
  - intros Heq. now rewrite Heq in Hfree.
  - apply encode_fixes_float_free.
  - exact Hfree.
  - now apply encode_fixes_float_free.
Qed.

(** X2. Decoding changes a value exactly when a Decimal occurs in it, its
    result holds no Decimal, and decoding a second time changes nothing. *)
Theorem decode_only_touches_decimals (v : pyval) :
  (_convert_decimal_to_float v = v <-> has_decimal v = false)
  /\ has_decimal (_convert_decimal_to_float v) = false
  /\ _convert_decimal_to_float (_convert_decimal_to_float v)
     = _convert_decimal_to_float v.
Proof.
  pose proof (decoded_has_no_decimal v) as Hfree.
  split; [split|split].
  - intros Heq. now rewrite Heq in Hfree.
  - apply decode_fixes_decimal_free.
  - exact Hfree.
  - now apply decode_fixes_decimal_free.
Qed.


(** X4. A value that holds a Decimal does not come back from encoding and
    decoding: what comes back holds no Decimal. *)
Theorem decimals_do_not_round_trip (v : pyval) :
  has_decimal v = true ->
  _convert_decimal_to_float (_convert_floats_to_decimal v) <> v.
Proof.
  intros Hdec Heq.
  pose proof (decoded_has_no_decimal (_convert_floats_to_decimal v)) as Hfree.
  rewrite Heq in Hfree. congruence.
Qed.

(** Decoding after encoding on the representable values. *)
Lemma round_trip_representable (v : pyval) :
  repr_round_trips -> representable v = true ->
  _convert_decimal_to_float (_convert_floats_to_decimal v) = v.
Proof.
  intros Hrepr.
  induction v as [ | | | f | | | | l IH | kvs IH | ] using pyval_nested_ind;
    simpl; intros Hv; try reflexivity; try discriminate.
  - now rewrite Hrepr.
  - f_equal. rewrite map_map. apply map_fixes.
    rewrite forallb_forall in Hv. rewrite Forall_forall in *.
    intros x Hx. now apply IH, Hv.
  - f_equal. rewrite map_map. apply map_fixes.
    rewrite forallb_forall in Hv. rewrite Forall_forall in *.
    intros [k x] Hx. simpl. f_equal.
    now apply (IH (k, x) Hx), (Hv (k, x)).
Qed.

End CodecShape.

Lemma decimals_do_not_round_trip_witness :
  _convert_decimal_to_float (_convert_floats_to_decimal priced) <> priced.
Proof. apply (decimals_do_not_round_trip priced). reflexivity. Defined.

(** ** The table and item tools *)

Section ToolEdges.
Context `{FL : FloatLib} {RT : Runtime} {W : World}.

(** The cases a tool body goes through once the engine has answered. *)
Ltac cases :=
  repeat (match goal with
          | |- context [match ?x with _ => _ end] =>
              lazymatch x with
              | context [match _ with _ => _ end] => fail
              | _ => destruct x
              end
          end; simpl);
  try reflexivity.

(** X5. An item put with [put_dynamodb_item] and read back with
    [get_dynamodb_item] from an engine that returns what it was given is
    shown with the values that went in, floats included. *)
Theorem put_then_get_shows_item (name : string)
    (kvs : list (string * pyval)) (key : pyval) (s : state)
    put_resp w1 get_resp w2 :
  repr_round_trips ->
  representable (VDict kvs) = true ->
  engine (PutItem name (_convert_floats_to_decimal (VDict kvs))) (env s)
  = (Ok put_resp, w1) ->
  engine (GetItem name key) w1 = (Ok get_resp, w2) ->
  lookup "Item" get_resp = Some (_convert_floats_to_decimal (VDict kvs)) ->
  fst (get_dynamodb_item name key
         (snd (put_dynamodb_item name (VDict kvs) s)))
  = Ok ("Item found:" ++ nl
          ++ join nl (map (fun kv => "  " ++ fst kv ++ ": " ++ py_str (snd kv))
                        kvs)).
Proof.
  intros Hrepr Hv Hput Hget Hitem.
  pose proof (round_trip_representable (VDict kvs) Hrepr Hv) as Hround.
  remember (_convert_floats_to_decimal (VDict kvs)) as stored eqn:Hstored.
  assert (snd (put_dynamodb_item name (VDict kvs) s)
          = {| env := w1; calls := (calls s ++ [PutItem name stored])%list |})
    as ->.
  { unfold put_dynamodb_item, try, bind, request, ret.
    rewrite <- Hstored, Hput. reflexivity. }
  unfold get_dynamodb_item, try, bind, request, lift, ret.
  cbn [env calls]. rewrite Hget. cbv beta iota.
  unfold has_key, getitem. rewrite Hitem. cbv beta iota.
  rewrite Hround. reflexivity.
Qed.

(** X6. [create_dynamodb_table] sends one request: a provisioned table whose
    key schema and attribute definitions name the partition key and, only
    when the sort key is a non-empty string, the sort key after it. *)
Theorem create_table_sends_one_schema (table_name partition_key
    partition_key_type : string) (sort_key : option string)
    (sort_key_type : string) (read_capacity write_capacity : Z) (s : state) :
  calls (snd (create_dynamodb_table table_name partition_key
                partition_key_type sort_key sort_key_type
                read_capacity write_capacity s))
  = (calls s
     ++ [create_request table_name partition_key partition_key_type sort_key
           sort_key_type read_capacity write_capacity])%list
  /\ range_keys None = [] /\ range_keys (Some "") = []
  /\ (forall c r, range_keys (Some (String c r)) = [String c r]).
Proof.
  split; [|repeat split].
  unfold create_dynamodb_table, try, bind, request, lift, ret, given,
    create_request, range_keys.
  destruct sort_key as [sk|]; [destruct (String.eqb sk "")|]; simpl;
    (destruct (engine _ (env s)) as [[resp|[code message op|cls text]] w1];
     simpl; cases).
Qed.

Lemma create_table_raised (table_name pk pkt : string) (sk : option string)
    (skt : string) (rc wc : Z) (s : state) (e : exn) w1 :
  engine (create_request table_name pk pkt sk skt rc wc) (env s)
  = (Raise e, w1) ->
  fst (create_dynamodb_table table_name pk pkt sk skt rc wc s)
  = match e with
    | ClientError code message _ =>
        if String.eqb code "ResourceInUseException"
        then Ok ("Error: Table '" ++ table_name ++ "' already exists")
        else Ok ("Error creating table: " ++ message)
    | OtherError _ text => Ok ("Unexpected error: " ++ text)
    end.
Proof.
  unfold create_dynamodb_table, try, bind, request, lift, ret, given,
    create_request, range_keys.
  destruct sk as [sk|]; [destruct (String.eqb sk "")|]; simpl;
    intros ->; destruct e as [code message op|cls text]; simpl;
    try destruct (String.eqb code _); reflexivity.
Qed.

(** X7. A table that is already there, or not there, is reported by name:
    [ResourceInUseException] from the create, and
    [ResourceNotFoundException] from the delete or the describe, give the
    messages that say so. *)
Theorem lifecycle_errors_are_named (table_name : string) (s : state) :
  (forall pk pkt sk skt rc wc message op w1,
     engine (create_request table_name pk pkt sk skt rc wc) (env s)
     = (Raise (ClientError "ResourceInUseException" message op), w1) ->
     fst (create_dynamodb_table table_name pk pkt sk skt rc wc s)
     = Ok ("Error: Table '" ++ table_name ++ "' already exists"))
  /\ (forall message op w1,
     engine (DeleteTable table_name) (env s)
     = (Raise (ClientError "ResourceNotFoundException" message op), w1) ->
     fst (delete_dynamodb_table table_name s)
     = Ok ("Error: Table '" ++ table_name ++ "' does not exist"))
  /\ (forall message op w1,
     engine (DescribeTable table_name) (env s)
     = (Raise (ClientError "ResourceNotFoundException" message op), w1) ->
     fst (describe_dynamodb_table table_name s)
     = Ok ("Error: Table '" ++ table_name ++ "' does not exist")).
Proof.
  split; [|split].
  - intros pk pkt sk skt rc wc message op w1 Hraise.
    now rewrite (create_table_raised _ _ _ _ _ _ _ _ _ _ Hraise).
  - intros message op w1 H.
    unfold delete_dynamodb_table, try, bind, request, ret. now rewrite H.
  - intros message op w1 H.
    unfold describe_dynamodb_table, try, bind, request, lift, ret.
    now rewrite H.
Qed.

(** X8. No table or item tool retries or reads a second page: whatever the
    engine answers, a call of the list, delete-table, describe, put, get,
    delete-item, scan or query tool sends exactly one request, for the table
    it was given; the scan passes its filter on only when it is a non-empty
    string. *)
Theorem tools_send_one_request (s : state) :
  calls (snd (list_dynamodb_tables s)) = (calls s ++ [ListTables])%list
  /\ (forall name,
        calls (snd (delete_dynamodb_table name s))
        = (calls s ++ [DeleteTable name])%list)
  /\ (forall name,
        calls (snd (describe_dynamodb_table name s))
        = (calls s ++ [DescribeTable name])%list)
  /\ (forall name item,
        calls (snd (put_dynamodb_item name item s))
        = (calls s ++ [PutItem name (_convert_floats_to_decimal item)])%list)
  /\ (forall name key,
        calls (snd (get_dynamodb_item name key s))
        = (calls s ++ [GetItem name key])%list)
  /\ (forall name key,
        calls (snd (delete_dynamodb_item name key s))
        = (calls s ++ [DeleteItem name key])%list)
  /\ (forall name limit filter_expression,
        calls (snd (scan_dynamodb_table name limit filter_expression s))
        = (calls s ++ [Scan name (Some limit) (given filter_expression)])%list)
  /\ (forall name key_name key_value limit,
        calls (snd (query_dynamodb_table name key_name key_value limit s))
        = (calls s ++ [Query name key_name key_value limit])%list)
  /\ given None = None /\ given (Some "") = None.
Proof.
  repeat split; intros;
    unfold list_dynamodb_tables, delete_dynamodb_table,
      describe_dynamodb_table, put_dynamodb_item, get_dynamodb_item,
      delete_dynamodb_item, scan_dynamodb_table, query_dynamodb_table,
      try, bind, request, lift, ret;
    (destruct (engine _ (env s)) as [[resp|[code message op|cls text]] w1];
     simpl; cases).
Qed.

(** X9. For a dict of updates, [update_dynamodb_item] sends one request whose
    expression sets every key through a pair of placeholders, [#k] for the
    name and [:k] for the value, in the order of the dict; the values are
    encoded, so none holds a float. *)
Theorem update_sends_aligned_placeholders (name : string) (key : pyval)
    (updates : list (string * pyval)) (s : state) :
  calls (snd (update_dynamodb_item name key (VDict updates) s))
  = (calls s ++ [update_request name key updates])%list
  /\ Forall (fun kv => has_float (snd kv) = false)
       (map (fun kv => (":" ++ fst kv, _convert_floats_to_decimal (snd kv)))
          updates).
Proof.
  split.
  - unfold update_dynamodb_item, try, bind, request, lift, ret,
      update_request.
    cbn [_convert_floats_to_decimal keys_of items_of].
    rewrite !map_map. cbn [fst snd].
    destruct (engine _ (env s)) as [[resp|[code message op|cls text]] w1];
      reflexivity.
  - apply Forall_forall. intros kv Hin. apply in_map_iff in Hin.
    destruct Hin as (x & <- & _). apply converted_has_no_float.
Qed.

(** X10. [update_dynamodb_item] does not check its updates: with an empty
    dict it still sends a request, whose expression is the bare [SET] with
    nothing to set, and with updates that are no dict it sends nothing and
    answers with the attribute error. *)
Theorem update_does_not_check_updates (name : string) (key : pyval)
    (s : state) :
  calls (snd (update_dynamodb_item name key (VDict []) s))
  = (calls s ++ [UpdateItem name key "SET " [] []])%list
  /\ forall updates,
       is_dict updates = false ->
       update_dynamodb_item name key updates s
       = (Ok ("Unexpected error: "
                ++ str_exn (no_attribute (_convert_floats_to_decimal updates)
                              "keys")), s).
Proof.
  split.
  - apply (update_sends_aligned_placeholders name key [] s).
  - intros updates Hkind.
    destruct updates; try discriminate; reflexivity.
Qed.

(** X11. A key the engine has no item for is no error: when the response of
    the get carries no [Item], the tool answers that no item was found and
    names the key. *)
Theorem get_of_absent_key_is_no_error (name : string) (key : pyval)
    (s : state) resp w1 :
  engine (GetItem name key) (env s) = (Ok resp, w1) ->
  lookup "Item" resp = None ->
  fst (get_dynamodb_item name key s)
  = Ok ("No item found with key: " ++ py_str key).
Proof.
  intros Hget Hnone.
  unfold get_dynamodb_item, try, bind, request, lift, ret, has_key.
  now rewrite Hget, Hnone.
Qed.

Lemma format_items_returns (acc : string) (rows : list (nat * pyval)) :
  Forall (fun p => is_dict (snd p) = true) rows ->
  exists text, format_items acc rows = Ok text.
Proof.
  intros H. revert acc.
  induction H as [|[i x] r Hx _ IH]; intros acc; simpl; [eauto|].
  destruct x; try discriminate. simpl. apply IH.
Qed.

Lemma enumerate_dicts (n : nat) (rows : list pyval) :
  forallb is_dict rows = true ->
  Forall (fun p => is_dict (snd p) = true)
    (enumerate n (map _convert_decimal_to_float rows)).
Proof.
  revert n. induction rows as [|x r IH]; intros n H; simpl; [constructor|].
  simpl in H. apply andb_true_iff in H. destruct H as [Hx Hr].
  constructor; [|now apply IH].
  destruct x; try discriminate. reflexivity.
Qed.

(** X12. [scan_dynamodb_table] shows every item the engine returned: the
    count in the heading is the number of items of the response and each of
    them is listed, decoded; the tool itself never cuts the list to the
    limit, and an empty or missing list of items is reported as such. *)
Theorem scan_shows_every_returned_item (name : string) (limit : Z)
    (filter_expression : option string) (s : state) resp w1 :
  engine (Scan name (Some limit) (given filter_expression)) (env s)
  = (Ok resp, w1) ->
  (forall rows,
     dict_get resp "Items" (VList []) = VList rows ->
     rows <> [] -> forallb is_dict rows = true ->
     exists text,
       format_items
         ("Found " ++ str_nat (length rows) ++ " item(s) in '" ++ name
            ++ "':" ++ nl ++ nl)
         (enumerate 1 (map _convert_decimal_to_float rows)) = Ok text
       /\ fst (scan_dynamodb_table name limit filter_expression s)
          = Ok (strip text))
  /\ (truthy (dict_get resp "Items" (VList [])) = false ->
      fst (scan_dynamodb_table name limit filter_expression s)
      = Ok ("No items found in table '" ++ name ++ "'")).
Proof.
  intros Hscan. split.
  - intros rows Hrows Hne Hdicts.
    destruct (format_items_returns
                ("Found " ++ str_nat (length rows) ++ " item(s) in '" ++ name
                   ++ "':" ++ nl ++ nl)
                _ (enumerate_dicts 1 rows Hdicts)) as (text & Htext).
    exists text. split; [exact Htext|].
    unfold scan_dynamodb_table, try, bind, request, lift, ret.
    rewrite Hscan. cbv beta iota. rewrite Hrows.
    destruct rows as [|x r]; [contradiction|].
    change (truthy (VList (x :: r))) with true. cbv beta iota delta [negb].
    cbn [iterate]. rewrite length_map. simpl in Htext |- *.
    now rewrite Htext.
  - intros Hfalsy.
    unfold scan_dynamodb_table, try, bind, request, lift, ret.
    rewrite Hscan. cbv beta iota. now rewrite Hfalsy.
Qed.

End ToolEdges.

Lemma put_then_get_shows_item_witness :
  fst (get_dynamodb_item "t" (VDict [("id", VStr "1")])
         (snd (put_dynamodb_item "t" scored (start (one_table "t" "id" [])))))
  = Ok ("Item found:" ++ nl ++ "  id: 1" ++ nl ++ "  score: 3.14").
Proof.
  exact (put_then_get_shows_item "t"
           [("id", VStr "1"); ("score", VFloat "3.14")]
           (VDict [("id", VStr "1")]) (start (one_table "t" "id" []))
           _ _ _ _ repr_floats_round_trip eq_refl eq_refl eq_refl eq_refl).
Defined.

Lemma lifecycle_errors_are_named_witness :
  fst (create_dynamodb_table "t" "id" "S" None "S" 5 5
         (start (one_table "t" "id" [])))
  = Ok "Error: Table 't' already exists"
  /\ fst (delete_dynamodb_table "u" (start (one_table "t" "id" [])))
     = Ok "Error: Table 'u' does not exist"
  /\ fst (describe_dynamodb_table "u" (start (one_table "t" "id" [])))
     = Ok "Error: Table 'u' does not exist".
Proof.
  split; [|split].
  - exact (proj1 (lifecycle_errors_are_named "t"
                    (start (one_table "t" "id" [])))
             "id" "S" None "S" 5%Z 5%Z _ _ _ eq_refl).
  - exact (proj1 (proj2 (lifecycle_errors_are_named "u"
                           (start (one_table "t" "id" []))))
             _ _ _ eq_refl).
  - exact (proj2 (proj2 (lifecycle_errors_are_named "u"
                           (start (one_table "t" "id" []))))
             _ _ _ eq_refl).
Defined.

Lemma update_does_not_check_updates_witness :
  update_dynamodb_item "t" (VDict [("id", VStr "1")]) (VStr "x")
    (start (one_table "t" "id" []))
  = (Ok "Unexpected error: 'str' object has no attribute 'keys'",
     start (one_table "t" "id" [])).
Proof.
  exact (proj2 (update_does_not_check_updates "t" (VDict [("id", VStr "1")])
                  (start (one_table "t" "id" [])))
           (VStr "x") eq_refl).
Defined.

Lemma get_of_absent_key_is_no_error_witness :
  fst (get_dynamodb_item "t" (VStr "2") (start (one_table "t" "id" [scored])))
  = Ok "No item found with key: 2".
Proof.
  exact (get_of_absent_key_is_no_error "t" (VStr "2")
           (start (one_table "t" "id" [scored])) _ _ eq_refl eq_refl).
Defined.

Lemma scan_shows_every_returned_item_witness :
  (exists text,
     format_items ("Found 2 item(s) in 't':" ++ nl ++ nl)
       (enumerate 1 (map _convert_decimal_to_float [priced; scored]))
     = Ok text
     /\ fst (scan_dynamodb_table "t" 1 None
               (start_unbounded [priced; scored]))
        = Ok (strip text))
  /\ fst (scan_dynamodb_table "t" 10 (Some "")
            (start (one_table "t" "id" [])))
     = Ok "No items found in table 't'".
Proof.
  split.
  - exact (proj1 (scan_shows_every_returned_item "t" 1 None
                    (start_unbounded [priced; scored]) _ _ eq_refl)
             [priced; scored] eq_refl ltac:(discriminate) eq_refl).
  - exact (proj2 (scan_shows_every_returned_item "t" 10 (Some "")
                    (start (one_table "t" "id" [])) _ _ eq_refl)
             eq_refl).
Defined.

(** ** The memory tools *)

Section MemoryEdges.
Context `{FL : FloatLib} {RT : Runtime} {W : World}.


(** X14. When the describe fails with a [ClientError] other than
    [ResourceNotFoundException], [ensure_memory_table_exists] creates
    nothing: it answers with the message of that error after the one
    request. *)
Theorem ensure_exists_creates_only_when_missing (s : state)
    code message op w1 :
  engine describe_memory_table (env s)
  = (Raise (ClientError code message op), w1) ->
  String.eqb code "ResourceNotFoundException" = false ->
  DynMemory.ensure_memory_table_exists s
  = (Ok ("Error checking table: " ++ message),
     {| env := w1; calls := (calls s ++ [describe_memory_table])%list |}).
Proof.
  unfold DynMemory.ensure_memory_table_exists, try, bind, request, ret.
  fold describe_memory_table. intros -> Hcode. simpl. now rewrite Hcode.
Qed.

(** X15. Any failure of the put ends [store_memory_item] with the message
    [Error storing memory:] followed by the text of the exception, after
    that one request; a missing table is not told apart from other
    failures. *)
Theorem store_reports_put_failure (content tldr : string)
    (hashtags source_url metadata : pyval) (s : state) (e : exn) w1 :
  let item :=
    DynMemory.memory_item (fst (utcnow (env s))) content tldr hashtags
      source_url metadata in
  engine (PutItem MEMORY_TABLE_NAME (VDict item)) (snd (utcnow (env s)))
  = (Raise e, w1) ->
  DynMemory.store_memory_item content tldr hashtags source_url metadata s
  = (Ok ("Error storing memory: " ++ str_exn e),
     {| env := w1;
        calls := (calls s ++ [PutItem MEMORY_TABLE_NAME (VDict item)])%list
     |}).
Proof.
  intros item. subst item.
  unfold DynMemory.store_memory_item, try, bind, now, request, lift, ret.
  destruct (utcnow (env s)) as [t w0]. cbn [fst snd env calls].
  intros ->. now destruct e.
Qed.

(** X16. [store_memory_item] writes before it looks at the hashtags: when
    the put succeeds and the hashtags cannot be joined, because one of them
    is no string, the item is in the engine and the tool still answers
    [Error storing memory:]. *)
Theorem store_writes_before_joining (content tldr : string)
    (hashtags source_url metadata : pyval) (s : state) put_resp w1 (e : exn) :
  let item :=
    DynMemory.memory_item (fst (utcnow (env s))) content tldr hashtags
      source_url metadata in
  engine (PutItem MEMORY_TABLE_NAME (VDict item)) (snd (utcnow (env s)))
  = (Ok put_resp, w1) ->
  py_join ", " hashtags = Raise e ->
  DynMemory.store_memory_item content tldr hashtags source_url metadata s
  = (Ok ("Error storing memory: " ++ str_exn e),
     {| env := w1;
        calls := (calls s ++ [PutItem MEMORY_TABLE_NAME (VDict item)])%list
     |}).
Proof.
  intros item. subst item.
  unfold DynMemory.store_memory_item, try, bind, now, request, lift, ret.
  destruct (utcnow (env s)) as [t w0]. cbn [fst snd env calls].
  intros -> Hjoin. cbv beta iota. rewrite Hjoin. now destruct e.
Qed.

End MemoryEdges.

Example ensure_exists_offline :
  fst (DynMemory.ensure_memory_table_exists (start_failing unreachable))
  = Raise unreachable.
Proof. reflexivity. Qed.

Lemma ensure_exists_creates_only_when_missing_witness :
  DynMemory.ensure_memory_table_exists (start_failing denied)
  = (Ok "Error checking table: User is not authorized",
     @Build_state ReprFloats (Failing denied) tt [describe_memory_table]).
Proof.
  exact (ensure_exists_creates_only_when_missing (start_failing denied)
           _ _ _ _ eq_refl eq_refl).
Defined.

Lemma store_reports_put_failure_witness :
  fst (DynMemory.store_memory_item "remember X" "X is important"
         (VList [VStr "#note"]) VNone VNone (start (no_tables 3)))
  = Ok "Error storing memory: An error occurred (ResourceNotFoundException) when calling the PutItem operation: Requested resource not found".
Proof.
  exact (f_equal fst
           (store_reports_put_failure "remember X" "X is important"
              (VList [VStr "#note"]) VNone VNone (start (no_tables 3))
              _ _ eq_refl)).
Defined.

Lemma store_writes_before_joining_witness :
  let out := DynMemory.store_memory_item "remember X" "X is important"
               numbered_tags VNone VNone
               (start (with_clock [reading] (memory_table []))) in
  fst out
  = Ok "Error storing memory: sequence item 1: expected str instance, int found"
  /\ items_in "AIMemories" (env (snd out))
     = [ VDict (DynMemory.memory_item reading "remember X" "X is important"
                  numbered_tags VNone VNone) ].
Proof.
  intros out.
  pose proof (store_writes_before_joining "remember X" "X is important"
                numbered_tags VNone VNone
                (start (with_clock [reading] (memory_table [])))
                _ _ _ eq_refl eq_refl) as Hout.
  split.
  - exact (f_equal fst Hout).
  - exact (f_equal (fun r => items_in "AIMemories" (env (snd r))) Hout).
Defined.

(** ** Memory ids and time *)

Lemma compare_append (a a' b b' : string) :
  String.length a = String.length a' ->
  String.compare (a ++ b) (a' ++ b')
  = then_compare (String.compare a a') (String.compare b b').
Proof.
  revert a'. induction a as [|c a IH]; intros [|c' a'] Hlen;
    try discriminate; [reflexivity|].
  simpl in *. destruct (Ascii.compare c c'); try reflexivity.
  apply IH. congruence.
Qed.

Lemma compare_digits (d e : Z) :
  (0 <= d < 10)%Z -> (0 <= e < 10)%Z ->
  Ascii.compare (digit_char d) (digit_char e) = (d ?= e)%Z.
Proof.
  intros Hd He.
  assert (d = 0 \/ d = 1 \/ d = 2 \/ d = 3 \/ d = 4 \/ d = 5 \/ d = 6
          \/ d = 7 \/ d = 8 \/ d = 9)%Z as Hds by lia.
  assert (e = 0 \/ e = 1 \/ e = 2 \/ e = 3 \/ e = 4 \/ e = 5 \/ e = 6
          \/ e = 7 \/ e = 8 \/ e = 9)%Z as Hes by lia.
  repeat (destruct Hds as [->|Hds]);
    repeat (destruct Hes as [->|Hes]); subst; reflexivity.
Qed.

Lemma fixed_digits_length (w : nat) (n : Z) :
  String.length (fixed_digits w n) = w.
Proof.
  revert n. induction w as [|w IH]; intros n; [reflexivity|].
  simpl. rewrite append_length, IH. simpl. lia.
Qed.

Lemma compare_by_last_digit (n m : Z) :
  then_compare (n / 10 ?= m / 10)%Z (n mod 10 ?= m mod 10)%Z = (n ?= m)%Z.
Proof.
  pose proof (Z.div_mod n 10 ltac:(lia)) as Hn.
  pose proof (Z.div_mod m 10 ltac:(lia)) as Hm.
  pose proof (Z.mod_pos_bound n 10 ltac:(lia)) as Hrn.
  pose proof (Z.mod_pos_bound m 10 ltac:(lia)) as Hrm.
  unfold then_compare.
  destruct (Z.compare_spec (n / 10) (m / 10)) as [Hq|Hq|Hq].
  - destruct (Z.compare_spec (n mod 10) (m mod 10));
      symmetry; [apply Z.compare_eq_iff|apply Z.compare_lt_iff
                |apply Z.compare_gt_iff]; lia.
  - symmetry. apply Z.compare_lt_iff. lia.
  - symmetry. apply Z.compare_gt_iff. lia.
Qed.

(** Padded numbers of one width are ordered as texts the way they are
    ordered as numbers. *)
Lemma compare_fixed_digits (w : nat) (n m : Z) :
  (0 <= n < 10 ^ Z.of_nat w)%Z -> (0 <= m < 10 ^ Z.of_nat w)%Z ->
  String.compare (fixed_digits w n) (fixed_digits w m) = (n ?= m)%Z.
Proof.
  revert n m. induction w as [|w IH]; intros n m Hn Hm.
  - simpl in *. assert (n = 0 /\ m = 0)%Z as [-> ->] by lia. reflexivity.
  - rewrite Nat2Z.inj_succ, Z.pow_succ_r in Hn, Hm by lia.
    simpl fixed_digits.
    rewrite compare_append by (now rewrite !fixed_digits_length).
    rewrite IH
      by (split; [apply Z.div_pos; lia|apply Z.div_lt_upper_bound; lia]).
    rewrite <- (compare_by_last_digit n m). f_equal.
    cbn [String.compare].
    rewrite compare_digits by (apply Z.mod_pos_bound; lia).
    now destruct (n mod 10 ?= m mod 10)%Z.
Qed.

(** The ids of two clock readings compare as the readings do. *)
Lemma memory_id_compare (a b : datetime) :
  valid_datetime a -> valid_datetime b ->
  String.compare (DynMemory.memory_id_of a) (DynMemory.memory_id_of b)
  = chronological a b.
Proof.
  intros (Hya & Hma & Hda & Hha & Hmia & Hsa & Hua)
         (Hyb & Hmb & Hdb & Hhb & Hmib & Hsb & Hub).
  unfold DynMemory.memory_id_of, strftime_id, chronological.
  rewrite (four_digit_year _ Hya), (four_digit_year _ Hyb).
  rewrite (compare_append "mem_" "mem_") by reflexivity.
  change (String.compare "mem_" "mem_") with Eq. cbn [then_compare].
  repeat (rewrite compare_append by (now rewrite !fixed_digits_length));
    repeat (rewrite (compare_append "_" "_") by reflexivity;
            change (String.compare "_" "_") with Eq; cbn [then_compare];
            repeat (rewrite compare_append
                      by (now rewrite !fixed_digits_length))).
  rewrite (compare_fixed_digits 4), !(compare_fixed_digits 2),
    (compare_fixed_digits 6); simpl; try lia.
  reflexivity.
Qed.

Lemma then_compare_eq (c c' : comparison) :
  then_compare c c' = Eq -> c = Eq /\ c' = Eq.
Proof. destruct c; simpl; intros H; try discriminate; auto. Qed.

(** X17. Memory ids sort as text in the order of time: for clock readings
    with a four-digit year, the id of one is below the id of another exactly
    when the first reading is the earlier one. *)
Theorem memory_ids_sort_by_time (a b : datetime) :
  valid_datetime a -> valid_datetime b ->
  (String.ltb (DynMemory.memory_id_of a) (DynMemory.memory_id_of b) = true
   <-> chronological a b = Lt).
Proof.
  intros Ha Hb. unfold String.ltb. rewrite (memory_id_compare a b Ha Hb).
  destruct (chronological a b); split; congruence.
Qed.

(** X18. Two memories get the same id exactly when they are made at the same
    clock reading, to the microsecond. *)
Theorem memory_ids_differ_with_time (a b : datetime) :
  valid_datetime a -> valid_datetime b ->
  (DynMemory.memory_id_of a = DynMemory.memory_id_of b <-> a = b).
Proof.
  intros Ha Hb. split; [|now intros ->].
  intros Heq. pose proof (memory_id_compare a b Ha Hb) as Hcmp.
  rewrite Heq in Hcmp.
  assert (String.compare (DynMemory.memory_id_of b) (DynMemory.memory_id_of b)
          = Eq) as Hrefl.
  { pose proof (String.compare_antisym (DynMemory.memory_id_of b)
                  (DynMemory.memory_id_of b)) as Hanti.
    destruct (String.compare _ _); simpl in Hanti; congruence. }
  rewrite Hrefl in Hcmp. symmetry in Hcmp. unfold chronological in Hcmp.
  repeat (apply then_compare_eq in Hcmp;
          let H := fresh "Hfield" in destruct Hcmp as [H Hcmp];
          apply Z.compare_eq in H).
  apply Z.compare_eq in Hcmp.
  destruct a, b; simpl in *. congruence.
Qed.

Lemma reading_is_valid : valid_datetime reading /\ valid_datetime reading_after.
Proof. split; vm_compute; intuition discriminate. Defined.

Lemma memory_ids_sort_by_time_witness :
  String.ltb (DynMemory.memory_id_of reading)
    (DynMemory.memory_id_of reading_after) = true.
Proof.
  apply (memory_ids_sort_by_time reading reading_after
           (proj1 reading_is_valid) (proj2 reading_is_valid)).
  reflexivity.
Defined.

Lemma memory_ids_differ_with_time_witness :
  DynMemory.memory_id_of reading <> DynMemory.memory_id_of reading_after.
Proof.
  intros Heq.
  apply (memory_ids_differ_with_time reading reading_after
           (proj1 reading_is_valid) (proj2 reading_is_valid)) in Heq.
  discriminate.
Defined.

(** ** Listing and searching *)

Section ListingEdges.
Context `{FL : FloatLib} {RT : Runtime} {W : World}.

Lemma insert_desc_stable (x : pyval * pyval) (l l' : list (pyval * pyval))
    (z : Z) :
  keyed x -> Forall keyed l -> DynMemory.insert_desc x l = Ok l' ->
  with_timestamp z (map snd l') = with_timestamp z (snd x :: map snd l).
Proof.
  intros Hx. revert l'. induction l as [|y r IH]; intros l' Hl Hins.
  - simpl in Hins. now injection Hins as <-.
  - inversion Hl as [|? ? Hy Hr]; subst. simpl in Hins.
    rewrite (py_lt_numbers _ _ _ _ Hx Hy) in Hins. simpl in Hins.
    destruct (Z.ltb_spec (timestamp_of (snd x)) (timestamp_of (snd y)))
      as [Hlt|Hge].
    + destruct (DynMemory.insert_desc x r) as [r'|] eqn:Hr'; [|discriminate].
      simpl in Hins. injection Hins as <-.
      unfold with_timestamp in *. simpl. rewrite (IH r' Hr eq_refl). simpl.
      destruct (Z.eqb_spec (timestamp_of (snd y)) z),
               (Z.eqb_spec (timestamp_of (snd x)) z); try reflexivity. lia.
    + now injection Hins as <-.
Qed.

Lemma sort_desc_stable (l l' : list (pyval * pyval)) (z : Z) :
  Forall keyed l -> DynMemory.sort_desc l = Ok l' ->
  with_timestamp z (map snd l') = with_timestamp z (map snd l).
Proof.
  intros Hl. revert l'. induction Hl as [|x r Hx Hr IH]; intros l' Hsort.
  - simpl in Hsort. now injection Hsort as <-.
  - simpl in Hsort.
    destruct (sort_desc_sorts r Hr) as (r' & Hr' & _ & Hk & _).
    rewrite Hr' in Hsort. simpl in Hsort.
    rewrite (insert_desc_stable x r' l' z Hx Hk Hsort).
    unfold with_timestamp in *. simpl. now rewrite (IH r' Hr').
Qed.

(** X19. The sort of [list_recent_memories] is stable: among the scanned
    records, those with the same timestamp stay in the order in which the
    scan returned them. *)
Theorem recent_sort_is_stable (rows : list pyval) :
  forallb has_int_timestamp rows = true ->
  exists sorted,
    DynMemory.sort_by_timestamp (VList rows) = Ok sorted
    /\ forall z, with_timestamp z sorted = with_timestamp z rows.
Proof.
  intros Hint.
  destruct (keys_of_int_timestamps rows Hint) as (ks & Hks & Hm & Hk).
  destruct (sort_desc_sorts ks Hk) as (ks' & Hs & _).
  exists (map snd ks'). split.
  - simpl. rewrite Hks. simpl. now rewrite Hs.
  - intros z. rewrite <- Hm. now apply sort_desc_stable.
Qed.

(** X20. [list_recent_memories] tells an empty table and a missing table
    apart from an error: a scan without items gives [No memories found], and
    [ResourceNotFoundException] gives the message that the memory table does
    not exist yet. *)
Theorem listing_nothing_is_no_error (limit : Z) (s : state) :
  (forall resp w1,
     engine (Scan MEMORY_TABLE_NAME (Some limit) None) (env s)
     = (Ok resp, w1) ->
     truthy (dict_get resp "Items" (VList [])) = false ->
     fst (DynMemory.list_recent_memories limit s) = Ok "No memories found")
  /\ (forall message op w1,
     engine (Scan MEMORY_TABLE_NAME (Some limit) None) (env s)
     = (Raise (ClientError "ResourceNotFoundException" message op), w1) ->
     fst (DynMemory.list_recent_memories limit s)
     = Ok ("Memory table '" ++ MEMORY_TABLE_NAME ++ "' does not exist yet")).
Proof.
  split.
  - intros resp w1 Hscan Hfalsy.
    unfold DynMemory.list_recent_memories, try, bind, request, lift, ret.
    rewrite Hscan. cbv beta iota. now rewrite Hfalsy.
  - intros message op w1 Hscan.
    unfold DynMemory.list_recent_memories, try, bind, request, lift, ret.
    now rewrite Hscan.
Qed.

Lemma lower_char_keeps_hash (c : ascii) :
  Ascii.eqb (lower_char c) "#" = Ascii.eqb c "#".
Proof. destruct c as [[] [] [] [] [] [] [] []]; reflexivity. Qed.

Lemma startswith_hash (h : string) :
  startswith h "#"
  = match h with
    | String c _ => Ascii.eqb c "#"
    | EmptyString => false
    end.
Proof.
  unfold startswith. destruct h as [|c r]; [reflexivity|].
  destruct c as [[] [] [] [] [] [] [] []]; destruct r; reflexivity.
Qed.

(** Lowering a query and normalising it can be done in either order. *)
Lemma lower_normalize (h : string) :
  lower (DynMemory.normalize_hashtag h)
  = DynMemory.normalize_hashtag (lower h).
Proof.
  unfold DynMemory.normalize_hashtag. rewrite !startswith_hash.
  destruct h as [|c r]; [reflexivity|]. cbn [lower].
  rewrite lower_char_keeps_hash. now destruct (Ascii.eqb c "#").
Qed.

Lemma select_same (f g : pyval -> result bool) (rows : list pyval) :
  (forall x, f x = g x) -> DynMemory.select f rows = DynMemory.select g rows.
Proof.
  intros Hfg. induction rows as [|x r IH]; simpl; [reflexivity|].
  now rewrite Hfg, IH.
Qed.

(** X21. The letter case of the query does not matter to
    [search_memories_by_hashtag]: two queries that are equal once lowered
    select the same records from any scan, whatever the records hold. *)
Theorem search_ignores_query_case (h1 h2 : string) (rows : list pyval) :
  lower h1 = lower h2 ->
  DynMemory.select
    (DynMemory.has_hashtag (DynMemory.normalize_hashtag h1)) rows
  = DynMemory.select
      (DynMemory.has_hashtag (DynMemory.normalize_hashtag h2)) rows.
Proof.
  intros Hlow. apply select_same. intros x.
  unfold DynMemory.has_hashtag. now rewrite !lower_normalize, Hlow.
Qed.

Lemma traverse_raises {A B} (f : A -> result B) (l : list A) (x : A) e0 :
  In x l -> f x = Raise e0 -> exists e, traverse f l = Raise e.
Proof.
  induction l as [|y r IH]; intros Hin Hx; [contradiction|]. simpl.
  destruct (f y) as [b|e] eqn:Hy; simpl; [|eauto].
  destruct Hin as [->|Hin]; [congruence|].
  destruct (IH Hin Hx) as (e & ->). simpl. eauto.
Qed.

Lemma select_raises (f : pyval -> result bool) (l : list pyval) (x : pyval)
    e0 :
  In x l -> f x = Raise e0 -> exists e, DynMemory.select f l = Raise e.
Proof.
  induction l as [|y r IH]; intros Hin Hx; [contradiction|]. simpl.
  destruct (f y) as [b|e] eqn:Hy; simpl; [|eauto].
  destruct Hin as [->|Hin]; [congruence|].
  destruct (IH Hin Hx) as (e & ->). simpl. eauto.
Qed.

Lemma odd_hashtag_raises (tag : string) (item : pyval) :
  has_odd_hashtag item = true ->
  exists e, DynMemory.has_hashtag tag item = Raise e.
Proof.
  destruct item as [ | | | | | | | |kvs| ]; try discriminate.
  unfold has_odd_hashtag, DynMemory.has_hashtag, get, dict_get.
  destruct (lookup "hashtags" kvs) as [[ | | | | | | |tags| | ]|];
    try discriminate.
  intros Hodd. apply existsb_exists in Hodd. destruct Hodd as (t & Hin & Ht).
  simpl.
  destruct (traverse_raises DynMemory.tag_lower tags t
              (no_attribute t "lower") Hin) as (e & ->).
  - destruct t; try discriminate; reflexivity.
  - simpl. eauto.
Qed.

(** X22. One record is enough to break every search: when a scanned record
    has a hashtag that is neither a string nor bytes, a number for instance,
    [search_memories_by_hashtag] answers [Error searching memories:] for
    every query, also when other records match. *)
Theorem odd_hashtag_breaks_search (hashtag : string) (s : state)
    resp w1 rows :
  engine (Scan MEMORY_TABLE_NAME None None) (env s) = (Ok resp, w1) ->
  dict_get resp "Items" (VList []) = VList rows ->
  existsb has_odd_hashtag rows = true ->
  exists e,
    fst (DynMemory.search_memories_by_hashtag hashtag s)
    = Ok ("Error searching memories: " ++ str_exn e).
Proof.
  intros Hscan Hrows Hodd.
  apply existsb_exists in Hodd. destruct Hodd as (x & Hin & Hx).
  destruct (odd_hashtag_raises (DynMemory.normalize_hashtag hashtag) x Hx)
    as (e0 & He0).
  destruct (select_raises _ rows x e0 Hin He0) as (e & He).
  exists e.
  unfold DynMemory.search_memories_by_hashtag, try, bind, request, lift, ret.
  rewrite Hscan. cbv beta iota. rewrite Hrows. cbn [iterate].
  rewrite He. reflexivity.
Qed.

End ListingEdges.

Lemma recent_sort_is_stable_witness :
  exists sorted,
    DynMemory.sort_by_timestamp (VList [twin_a; newer; twin_b]) = Ok sorted
    /\ forall z, with_timestamp z sorted
                 = with_timestamp z [twin_a; newer; twin_b].
Proof.
  exact (recent_sort_is_stable [twin_a; newer; twin_b] eq_refl).
Defined.

Example twins_keep_their_order :
  DynMemory.sort_by_timestamp (VList [twin_a; newer; twin_b])
  = Ok [newer; twin_a; twin_b].
Proof. reflexivity. Qed.

Lemma listing_nothing_is_no_error_witness :
  fst (DynMemory.list_recent_memories 5 (start (memory_table [])))
  = Ok "No memories found"
  /\ fst (DynMemory.list_recent_memories 5 (start (no_tables 3)))
     = Ok "Memory table 'AIMemories' does not exist yet".
Proof.
  split.
  - exact (proj1 (listing_nothing_is_no_error 5 (start (memory_table [])))
             _ _ eq_refl eq_refl).
  - exact (proj2 (listing_nothing_is_no_error 5 (start (no_tables 3)))
             _ _ _ eq_refl).
Defined.

Lemma search_ignores_query_case_witness :
  DynMemory.select
    (DynMemory.has_hashtag (DynMemory.normalize_hashtag "Python"))
    (odd_record :: tagged_rows)
  = DynMemory.select
      (DynMemory.has_hashtag (DynMemory.normalize_hashtag "pYTHON"))
      (odd_record :: tagged_rows).
Proof.
  exact (search_ignores_query_case "Python" "pYTHON"
           (odd_record :: tagged_rows) eq_refl).
Defined.

Lemma odd_hashtag_breaks_search_witness :
  exists e,
    fst (DynMemory.search_memories_by_hashtag "python"
           (start (memory_table (tagged_rows ++ [odd_record]))))
    = Ok ("Error searching memories: " ++ str_exn e).
Proof.
  exact (odd_hashtag_breaks_search "python"
           (start (memory_table (tagged_rows ++ [odd_record])))
           _ _ _ eq_refl eq_refl eq_refl).
Defined.

(** ** More on [extract_urls] *)

Lemma prefix_before_break (p a b : string) (c : ascii) :
  all_chars url_char p = true -> url_char c = false ->
  String.prefix p (a ++ String c b) = String.prefix p a.
Proof.
  intros Hp Hc. revert a.
  induction p as [|x p IH]; intros a.
  - destruct a; reflexivity.
  - simpl in Hp. apply andb_true_iff in Hp. destruct Hp as [Hx Hp].
    destruct a as [|y a]; simpl.
    + destruct (ascii_dec x c) as [->|]; [congruence|reflexivity].
    + destruct (ascii_dec x y); [now apply IH|reflexivity].
Qed.

Lemma take_while_before_break (a b : string) (c : ascii) :
  url_char c = false ->
  take_while url_char (a ++ String c b) = take_while url_char a.
Proof.
  intros Hc. induction a as [|y a IH]; simpl; [now rewrite Hc|].
  destruct (url_char y); [now rewrite IH|reflexivity].
Qed.

(** A character outside the class ends every match before it. *)
Lemma match_before_break (a b : string) (c : ascii) :
  url_char c = false ->
  match_url_at (a ++ String c b) = match_url_at a.
Proof.
  intros Hc. unfold match_url_at.
  rewrite !prefix_before_break by (assumption || reflexivity).
  destruct (String.prefix "https://" a) eqn:Hs.
  - rewrite (prefix_split _ _ Hs) at 1. rewrite append_assoc, drop_append.
    now rewrite take_while_before_break.
  - destruct (String.prefix "http://" a) eqn:Hp; [|reflexivity].
    rewrite (prefix_split _ _ Hp) at 1. rewrite append_assoc, drop_append.
    now rewrite take_while_before_break.
Qed.

Lemma no_match_at_break (b : string) (c : ascii) :
  url_char c = false -> match_url_at (String c b) = None.
Proof. intros Hc. exact (match_before_break "" b c Hc). Qed.

Lemma findall_before_break (n : nat) (a b : string) (c : ascii) :
  (String.length a <= n)%nat -> url_char c = false ->
  findall_urls 0 (a ++ String c b)
  = (findall_urls 0 a ++ findall_urls 0 b)%list.
Proof.
  intros Hlen Hc. revert a Hlen.
  induction n as [|n IH]; intros a Hlen.
  - destruct a; [|simpl in Hlen; lia].
    change ("" ++ String c b) with (String c b).
    cbn [findall_urls]. now rewrite (no_match_at_break b c Hc).
  - destruct a as [|y r].
    + change ("" ++ String c b) with (String c b).
      cbn [findall_urls]. now rewrite (no_match_at_break b c Hc).
    + simpl in Hlen.
      change (String y r ++ String c b) with (String y (r ++ String c b)).
      cbn [findall_urls].
      change (String y (r ++ String c b)) with (String y r ++ String c b).
      rewrite (match_before_break (String y r) b c Hc).
      destruct (match_url_at (String y r)) as [m|] eqn:Hm.
      * destruct (match_url_at_parts _ _ Hm)
          as (sch & body & Hsch & Hmeq & _ & _ & Hs).
        remember (drop (String.length m) (String y r)) as rest eqn:Hrest.
        clear Hrest.
        destruct m as [|c' m'];
          [destruct Hsch as [-> | ->]; discriminate|].
        simpl in Hs. injection Hs as Hy Hr. subst c' r.
        replace (String.length (String y m') - 1)%nat
          with (String.length m') by (simpl; lia).
        rewrite append_assoc, !skip_matched.
        rewrite append_length in Hlen.
        rewrite (IH rest) by lia. reflexivity.
      * apply IH. lia.
Qed.

(** X23. A character that cannot be part of a URL, white space for
    instance, separates the text for [extract_urls]: the URLs of the whole
    are the URLs of what is before it followed by the URLs of what is after
    it. *)
Theorem extract_urls_splits_at_breaks (a b : string) (c : ascii) :
  url_char c = false ->
  extract_urls (a ++ String c b) = (extract_urls a ++ extract_urls b)%list.
Proof.
  intros Hc. apply (findall_before_break (String.length a)); [lia|exact Hc].
Qed.

Lemma scanned_lengths (s : string) (found : list string) :
  scanned s found ->
  (total_length found <= String.length s)%nat
  /\ Forall (fun u => (8 <= String.length u)%nat) found.
Proof.
  induction 1 as [|c r found Hnone _ [IHlen IHall]
                 |m rest found Hm _ [IHlen IHall]].
  - split; [simpl; lia|constructor].
  - split; [simpl; lia|assumption].
  - split.
    + simpl. rewrite append_length. lia.
    + constructor; [|assumption].
      destruct (match_url_at_parts _ _ Hm)
        as (sch & body & Hsch & -> & Hne & _).
      rewrite append_length.
      destruct body; [congruence|].
      destruct Hsch as [-> | ->]; simpl; lia.
Qed.

Lemma eight_each (found : list string) :
  Forall (fun u => (8 <= String.length u)%nat) found ->
  (8 * length found <= total_length found)%nat.
Proof.
  induction 1 as [|u found Hu _ IH]; [simpl; lia|].
  cbn [length total_length fold_right]. fold (total_length found). lia.
Qed.

(** X24. The URLs [extract_urls] returns do not overlap and none is shorter
    than eight characters: their lengths add up to at most the length of the
    text, so a text holds at most an eighth of its length in URLs. *)
Theorem extract_urls_do_not_overlap (text : string) :
  (total_length (extract_urls text) <= String.length text)%nat
  /\ Forall (fun u => (8 <= String.length u)%nat) (extract_urls text)
  /\ (8 * length (extract_urls text) <= String.length text)%nat.
Proof.
  assert (scanned text (extract_urls text)) as Hscan
    by (apply (scanned_findall (String.length text)); lia).
  destruct (scanned_lengths _ _ Hscan) as [Hlen Hall].
  split; [assumption|]. split; [assumption|].
  pose proof (eight_each _ Hall). lia.
Qed.

Lemma extract_urls_splits_at_breaks_witness :
  extract_urls ("see http://a.b" ++ String " " "and https://c.d")
  = (extract_urls "see http://a.b" ++ extract_urls "and https://c.d")%list.
Proof.
  apply (extract_urls_splits_at_breaks "see http://a.b" "and https://c.d").
  reflexivity.
Defined.

(** ** Fetching a page *)

Lemma substring_length (n : nat) (s : string) :
  (n <= String.length s)%nat -> String.length (String.substring 0 n s) = n.
Proof.
  revert s. induction n as [|n IH]; intros s H.
  - now destruct s.
  - destruct s as [|c s]; simpl in *; [lia|]. rewrite IH; lia.
Qed.

Lemma limited_length (content : string) :
  (String.length (limited content)
   <= content_limit + String.length truncation_note)%nat.
Proof.
  unfold limited. generalize content_limit as n. intros n.
  destruct (Nat.ltb_spec n (String.length content)) as [Hlong|Hshort].
  - rewrite append_length. unfold take. rewrite substring_length; lia.
  - lia.
Qed.

(** X25. On a run that ended with code 0, [fetch_webpage_content] returns
    the stripped output whole when it has at most 10000 characters, and
    never more than 10000 characters of it followed by the note that the
    content was truncated. *)
Theorem fetched_content_is_bounded (path : string)
    (run : string -> result completed_process) (url : string)
    (result : completed_process) :
  run url = Ok result -> returncode result = 0%Z ->
  let page := fetch_webpage_content path true run url in
  (String.length page <= content_limit + String.length truncation_note)%nat
  /\ ((String.length (strip (stdout result)) <= content_limit)%nat ->
      page = strip (stdout result))
  /\ ((content_limit < String.length (strip (stdout result)))%nat ->
      page = take content_limit (strip (stdout result)) ++ truncation_note).
Proof.
  intros Hrun Hcode page. subst page.
  unfold fetch_webpage_content. simpl negb. cbv iota.
  rewrite Hrun, Hcode. simpl Z.eqb. cbv iota.
  split; [apply limited_length|].
  unfold limited. generalize content_limit as n. intros n.
  split; intros H.
  - destruct (Nat.ltb_spec n (String.length (strip (stdout result))));
      [lia|reflexivity].
  - destruct (Nat.ltb_spec n (String.length (strip (stdout result))));
      [reflexivity|lia].
Qed.

Lemma fetched_content_is_bounded_witness :
  let page := fetch_webpage_content "web2markdown.py" true short_page
                "https://a.b" in
  (String.length page <= content_limit + String.length truncation_note)%nat
  /\ page = "# https://a.b".
Proof.
  intros page.
  pose proof (fetched_content_is_bounded "web2markdown.py" short_page
                "https://a.b" _ eq_refl eq_refl) as (Hlen & Hshort & _).
  split; [exact Hlen|].
  apply Hshort. apply Nat.leb_le. vm_compute. reflexivity.
Defined.

(** ** What the memory tools write and where *)

Section MemoryRecords.
Context `{FL : FloatLib} {RT : Runtime} {W : World}.

Lemma tag_strings_of_strings (tags : list string) :
  tag_strings (map VStr tags) = tags.
Proof. induction tags as [|t r IH]; simpl; [reflexivity|now rewrite IH]. Qed.

Lemma strings_are_strings (tags : list string) :
  forallb is_str (map VStr tags) = true.
Proof. induction tags as [|t r IH]; simpl; [reflexivity|exact IH]. Qed.


(** X27. The memory tools keep to the memory table: whatever the engine
    answers, every request of the ensure, store, list and search tools names
    [MEMORY_TABLE_NAME]; the ensure tool sends at most three requests and
    each of the others exactly one. *)
Theorem memory_tools_keep_to_their_table (s : state) :
  (exists sent,
     calls (snd (DynMemory.ensure_memory_table_exists s))
     = (calls s ++ sent)%list
     /\ (1 <= length sent <= 3)%nat
     /\ Forall (fun c => request_table c = Some MEMORY_TABLE_NAME) sent)
  /\ (forall content tldr hashtags source_url metadata,
      exists c,
        calls (snd (DynMemory.store_memory_item content tldr hashtags
                      source_url metadata s))
        = (calls s ++ [c])%list
        /\ request_table c = Some MEMORY_TABLE_NAME)
  /\ (forall limit,
        calls (snd (DynMemory.list_recent_memories limit s))
        = (calls s ++ [Scan MEMORY_TABLE_NAME (Some limit) None])%list)
  /\ (forall hashtag,
        calls (snd (DynMemory.search_memories_by_hashtag hashtag s))
        = (calls s ++ [Scan MEMORY_TABLE_NAME None None])%list).
Proof.
  split; [|split; [|split]].
  - unfold DynMemory.ensure_memory_table_exists, try, bind, request, ret.
    fold describe_memory_table create_memory_table wait_memory_table.
    destruct (engine describe_memory_table (env s))
      as [[resp|[code message op|cls text]] w1]; simpl.
    + exists [describe_memory_table]. repeat constructor.
    + destruct (String.eqb code _); simpl.
      * destruct (engine create_memory_table w1) as [[created|e] w2]; simpl.
        -- destruct (engine wait_memory_table w2) as [[waited|e] w3]; simpl;
             exists [describe_memory_table; create_memory_table;
                     wait_memory_table];
             (split; [now rewrite <- !app_assoc|]); repeat constructor.
        -- exists [describe_memory_table; create_memory_table].
           split; [now rewrite <- !app_assoc|]. repeat constructor.
      * exists [describe_memory_table]. repeat constructor.
    + exists [describe_memory_table]. repeat constructor.
  - intros content tldr hashtags source_url metadata.
    unfold DynMemory.store_memory_item, try, bind, now, request, lift, ret.
    destruct (utcnow (env s)) as [t w0]. cbn [env calls].
    exists (PutItem MEMORY_TABLE_NAME
              (VDict (DynMemory.memory_item t content tldr hashtags
                        source_url metadata))).
    split; [|reflexivity].
    destruct (engine _ w0) as [[resp|e] w1]; simpl; [|reflexivity].
    destruct (py_join ", " hashtags); reflexivity.
  - intros limit. destruct (list_recent_one_scan limit s) as (text & ->).
    reflexivity.
  - intros hashtag.
    unfold DynMemory.search_memories_by_hashtag, try, bind, request, lift,
      ret.
    destruct (engine _ (env s)) as [[resp|e] w1]; simpl; [|reflexivity].
    destruct (iterate _) as [members|e]; simpl; [|reflexivity].
    destruct (DynMemory.select _ members) as [matching|e]; simpl;
      [|reflexivity].
    destruct (DynMemory.render_matches _ matching); reflexivity.
Qed.

End MemoryRecords.
